(** * recovery: panic-recovery middleware for HTTP handlers

    A shallow embedding of [middleware.go] (package [recovery]) and the
    properties of its guard ([Recover]), its configuration options and its
    default error handler.

    Go values are modelled as follows.
    - [int] is [Z]; the code only compares and stores integers, so no
      wrap-around arises.
    - [string] is [string] (a sequence of bytes), [[]byte] is [list byte].
    - [interface{}] (the value carried by a panic) is [any]: [None] is the
      nil interface, [Some d] a value with a dynamic type.
    - A function that writes to the response or the log, and that may panic,
      is a computation in the monad [M]: it maps the world before the call to
      the world after it, together with either its result or the value of
      the panic that left it.
    - What differs between Go runtimes (the longest slice [make] grants and
      what [recover] returns for [panic(nil)]) is a parameter, [Runtime]. *)

From Stdlib Require Import ZArith List String Ascii Bool Lia DecimalString.
From Stdlib.Strings Require Import Byte.
Import ListNotations.
Local Open Scope string_scope.
Local Open Scope Z_scope.

(** ** Values of the Go runtime and of the packages the code calls *)

(** A value of type [error], seen through the text [fmt] prints for it under
    the verb [%s], which is what its [Error] method returns. *)
Record error : Type := { Error : string }.

(** The dynamic value held by a non-nil [interface{}]. The type switch of
    [Recover] tells apart [string], the types that implement [error], and
    all the others. *)
Inductive dyn : Type :=
| DString (s : string)
| DError (e : error)
| DInt (n : Z)
| DBool (b : bool)
| DOther (type_name : string).

Definition any : Type := option dyn.

(** An [io.Writer] a logger writes to. *)
Inductive Writer : Type :=
| os_Stderr
| Buffer (id : nat).

(** A [*log.Logger]: the nil pointer, or a logger as built by
    [log.New(out, prefix, flag)]; a record handed to it is kept as the text
    [Printf] formats, before the logger puts its prefix and the time in
    front. *)
Inductive log_Logger : Type :=
| nil_Logger
| log_New (out : Writer) (prefix : string) (flag : Z).

Definition log_LstdFlags : Z := 3.

(** An [http.ResponseWriter] and an [*http.Request]; the guard hands both on
    and looks into neither. *)
Definition ResponseWriter : Type := nat.

Record Request : Type := { Method : string; URL : string }.

Definition http_StatusInternalServerError : Z := 500.
Definition http_StatusOK : Z := 200.

(** What a handler does that others can see: the calls it makes on a
    response writer and the records it hands to a logger. *)
Inductive Event : Type :=
| Header_Set (w : ResponseWriter) (key value : string)
| WriteHeader (w : ResponseWriter) (statusCode : Z)
| WriteBody (w : ResponseWriter) (body : string)
| Printf (l : log_Logger) (text : string).

(** The world a request runs in: the events so far, oldest first, and the
    text that [runtime.Stack] would format for the running goroutine if its
    buffer were large enough. *)
Record World : Type :=
  { events : list Event; goroutine : string }.

(** What the code meets of the Go runtime it runs on. [make([]byte, n)]
    panics when [n] is above [maxAlloc] (2^48 on the 64-bit platforms); a
    slice within the limit is taken to be granted. With [panicnil] a panic
    raised by [panic(nil)] carries nil, as in the releases before 1.21 and in
    the later ones under [GODEBUG=panicnil=1]; without it the runtime
    replaces nil by a [*runtime.PanicNilError]. *)
Record Runtime : Type :=
  { maxAlloc : Z; panicnil : bool }.

Definition M (A : Type) : Type := World -> World * (A + any).

Definition ret {A} (a : A) : M A := fun s => (s, inl a).

Definition bind {A B} (m : M A) (k : A -> M B) : M B :=
  fun s =>
    match m s with
    | (s1, inl a) => k a s1
    | (s1, inr v) => (s1, inr v)
    end.

Definition panic {A} (v : any) : M A := fun s => (s, inr v).

Definition emit (e : Event) : M unit :=
  fun s =>
    ({| events := (events s ++ [e])%list; goroutine := goroutine s |}, inl tt).

Notation "x <- m ;; k" := (bind m (fun x => k))
  (at level 61, m at next level, right associativity).
Notation "m ;;; k" := (bind m (fun _ => k))
  (at level 61, right associativity).

(** The error a run-time panic carries, by its text. *)
Definition runtime_Error (text : string) : any :=
  Some (DError {| Error := "runtime error: " ++ text |}).

Definition nil_dereference : any :=
  runtime_Error "invalid memory address or nil pointer dereference".

Definition runtime_PanicNilError : error :=
  {| Error := "panic called with nil argument (obsolete)" |}.

(** The value a panic carries when [panic] was called with [v]. *)
Definition carried (rt : Runtime) (v : any) : any :=
  match v with
  | Some x => Some x
  | None => if panicnil rt then None else Some (DError runtime_PanicNilError)
  end.

(** [defer func() { v := recover(); ... }(); body]: the deferred function
    runs when [body] has returned or panicked. Its call of [recover] gives
    the value carried by the panic under way, which it stops, or nil when
    [body] returned; what the deferred function then does, a new panic
    included, is the outcome of the whole call. The outcome [inr v] of a
    computation records the value [panic] was called with. *)
Definition defer_recover (rt : Runtime) (deferred : any -> M unit)
    (body : M unit) : M unit :=
  fun s =>
    match body s with
    | (s1, inl _) => deferred None s1
    | (s1, inr v) => deferred (carried rt v) s1
    end.

(** [make([]byte, n)]: a slice of [n] zero bytes; a negative length, or one
    above the limit of the runtime, is a run-time panic. *)
Definition make_bytes (rt : Runtime) (n : Z) : M (list byte) :=
  if (n <? 0) || (maxAlloc rt <? n)
  then panic (runtime_Error "makeslice: len out of range")
  else ret (repeat x00 (Z.to_nat n)).

(** [runtime.Stack(buf, false)]: formats the stack of the calling goroutine
    into [buf], as much of it as fits, and returns the number of bytes
    written. *)
Definition runtime_Stack (buf : list byte) : M (list byte * nat) :=
  fun s =>
    let full := list_byte_of_string (goroutine s) in
    let n := Nat.min (List.length full) (List.length buf) in
    (s, inl ((firstn n full ++ skipn n buf)%list, n)).

Definition newline : ascii := ascii_of_nat 10.

(** [strings.Split(s, sep)] for a separator of one byte: the pieces of [s]
    between the separators, of which there is one more than separators. *)
Fixpoint Split (s : string) (sep : ascii) : list string :=
  match s with
  | EmptyString => [EmptyString]
  | String a s' =>
      if Ascii.eqb a sep then EmptyString :: Split s' sep
      else match Split s' sep with
           | [] => [String a EmptyString]
           | piece :: pieces => String a piece :: pieces
           end
  end.

(** [strings.Join(elems, sep)]. *)
Definition Join (elems : list string) (sep : string) : string :=
  String.concat sep elems.

Definition nl : string := String newline EmptyString.

(** The methods of a response writer, as the writers of [net/http] and of
    [httptest] have them. The header counts as sent once [WriteHeader] or
    [Write] was called. [WriteHeader] refuses a status outside 100..999 with
    a panic when the header is not sent yet; a call after that is recorded
    and changes nothing. *)
Definition wroteHeader (w : ResponseWriter) (es : list Event) : bool :=
  existsb (fun e =>
             match e with
             | WriteHeader w' _ | WriteBody w' _ => Nat.eqb w' w
             | _ => false
             end) es.

Definition w_Header_Set (w : ResponseWriter) (key value : string) : M unit :=
  emit (Header_Set w key value).

Definition w_WriteHeader (w : ResponseWriter) (statusCode : Z) : M unit :=
  fun s =>
    if negb (wroteHeader w (events s)) &&
       ((statusCode <? 100) || (999 <? statusCode))
    then panic (Some (DString ("invalid WriteHeader code " ++
                               NilZero.string_of_int (Z.to_int statusCode)))) s
    else emit (WriteHeader w statusCode) s.

Definition w_Write (w : ResponseWriter) (body : string) : M unit :=
  emit (WriteBody w body).

(** [l.Printf(format, ...)], by the text it formats: one record for the
    logger, or a nil dereference when [l] is nil. *)
Definition Logger_Printf (l : log_Logger) (text : string) : M unit :=
  match l with
  | nil_Logger => panic nil_dereference
  | _ => emit (Printf l text)
  end.

(** ** The package *)

(** [Config.ErrHandler] holds a function: the package's own
    [DefaultErrorHandler], one the caller wrote, named here by a number and
    given its meaning by the table [custom] below, or nil. *)
Inductive ErrHandlerFunc : Type :=
| DefaultErrorHandler_func
| Custom_func (id : nat)
| nil_func.

Module Config.
Record t : Type := mk
  { ContentType : string;
    ResponseStatus : Z;
    StackSize : Z;
    Logger : log_Logger;
    ErrHandler : ErrHandlerFunc }.
End Config.

Definition Config : Type := Config.t.

(** [type Option func(c *Config)]: the update of the configuration it is
    applied to. *)
Definition Option : Type := Config -> Config.

Definition MinimumStackSize : Z := Z.shiftl 4 10.

Definition DefaultErrorHandler (c : Config) (w : ResponseWriter)
    (msg : string) (stack : list string) : M unit :=
  Logger_Printf (Config.Logger c) (msg ++ nl ++ Join stack nl) ;;;
  w_Header_Set w "Content-Type" (Config.ContentType c) ;;;
  w_WriteHeader w (Config.ResponseStatus c).

Definition NewConfig : Config :=
  {| Config.ContentType := "application/json";
     Config.ResponseStatus := http_StatusInternalServerError;
     Config.StackSize := MinimumStackSize;
     Config.Logger := log_New os_Stderr "" log_LstdFlags;
     Config.ErrHandler := DefaultErrorHandler_func |}.

Definition ContentType (val : string) : Option :=
  fun c =>
    {| Config.ContentType := val;
       Config.ResponseStatus := Config.ResponseStatus c;
       Config.StackSize := Config.StackSize c;
       Config.Logger := Config.Logger c;
       Config.ErrHandler := Config.ErrHandler c |}.

Definition ResponseStatus (val : Z) : Option :=
  fun c =>
    {| Config.ContentType := Config.ContentType c;
       Config.ResponseStatus := val;
       Config.StackSize := Config.StackSize c;
       Config.Logger := Config.Logger c;
       Config.ErrHandler := Config.ErrHandler c |}.

Definition StackSize (val : Z) : Option :=
  fun c =>
    if val <=? MinimumStackSize then c
    else
      {| Config.ContentType := Config.ContentType c;
         Config.ResponseStatus := Config.ResponseStatus c;
         Config.StackSize := val;
         Config.Logger := Config.Logger c;
         Config.ErrHandler := Config.ErrHandler c |}.

Definition Logger (logger : log_Logger) : Option :=
  fun c =>
    {| Config.ContentType := Config.ContentType c;
       Config.ResponseStatus := Config.ResponseStatus c;
       Config.StackSize := Config.StackSize c;
       Config.Logger := logger;
       Config.ErrHandler := Config.ErrHandler c |}.

Definition ErrorHandler (h : ErrHandlerFunc) : Option :=
  fun c =>
    {| Config.ContentType := Config.ContentType c;
       Config.ResponseStatus := Config.ResponseStatus c;
       Config.StackSize := Config.StackSize c;
       Config.Logger := Config.Logger c;
       Config.ErrHandler := h |}.

(** An [http.Handler], by its [ServeHTTP] method. *)
Definition Handler : Type := ResponseWriter -> Request -> M unit.

Definition ErrHandlerSem : Type :=
  Config -> ResponseWriter -> string -> list string -> M unit.

Section Guard.

(** The runtime, and the error handlers written by the caller. *)
Variable rt : Runtime.
Variable custom : nat -> ErrHandlerSem.

(** The call [c.ErrHandler(c, w, msg, stack)]; calling nil is a nil
    dereference. *)
Definition call_ErrHandler (f : ErrHandlerFunc) : ErrHandlerSem :=
  match f with
  | DefaultErrorHandler_func => DefaultErrorHandler
  | Custom_func id => custom id
  | nil_func => fun _ _ _ _ => panic nil_dereference
  end.

(** The loop of [Recover] over its options. *)
Definition apply_options (options : list Option) (c : Config) : Config :=
  fold_left (fun c v => v c) options c.

(** The handler [Recover] returns for the configuration [c] and the inner
    handler [h]. *)
Definition Recover_handler (c : Config) (h : Handler) : Handler :=
  fun w r =>
    defer_recover rt
      (fun v =>
         match v with
         | Some x =>
             let msg :=
               match x with
               | DString x => "panic: " ++ x
               | DError x => "panic: " ++ Error x
               | _ => "unknown panic"
               end in
             buf <- make_bytes rt (Config.StackSize c) ;;
             written <- runtime_Stack buf ;;
             let buf := firstn (snd written) (fst written) in
             let stack := Split (string_of_list_byte buf) newline in
             let stack :=
               if (3 <? List.length stack)%nat then skipn 3 stack else stack in
             call_ErrHandler (Config.ErrHandler c) c w msg stack
         | None => ret tt
         end)
      (h w r).

Definition Recover (options : list Option) : Handler -> Handler :=
  let c := apply_options options NewConfig in
  fun h => Recover_handler c h.

End Guard.

(** ** Vocabulary of the properties *)

(** The calls of the option constructors the package exports: the options a
    caller builds without writing a function of type [Option] by hand. *)
Inductive OptionCall : Type :=
| Call_ContentType (val : string)
| Call_ResponseStatus (val : Z)
| Call_StackSize (val : Z)
| Call_Logger (logger : log_Logger)
| Call_ErrorHandler (h : ErrHandlerFunc).

Definition option_of (k : OptionCall) : Option :=
  match k with
  | Call_ContentType val => ContentType val
  | Call_ResponseStatus val => ResponseStatus val
  | Call_StackSize val => StackSize val
  | Call_Logger logger => Logger logger
  | Call_ErrorHandler h => ErrorHandler h
  end.

(** The configuration [Recover] builds from the options of the package. *)
Definition configured (calls : list OptionCall) : Config :=
  apply_options (map option_of calls) NewConfig.

Inductive Field : Type :=
| FContentType | FResponseStatus | FStackSize | FLogger | FErrHandler.

Inductive FieldValue : Type :=
| VString (s : string)
| VInt (n : Z)
| VLogger (l : log_Logger)
| VFunc (f : ErrHandlerFunc).

Definition get (f : Field) (c : Config) : FieldValue :=
  match f with
  | FContentType => VString (Config.ContentType c)
  | FResponseStatus => VInt (Config.ResponseStatus c)
  | FStackSize => VInt (Config.StackSize c)
  | FLogger => VLogger (Config.Logger c)
  | FErrHandler => VFunc (Config.ErrHandler c)
  end.

(** The field an option is named after, and the value it was built with. *)
Definition field_of (k : OptionCall) : Field :=
  match k with
  | Call_ContentType _ => FContentType
  | Call_ResponseStatus _ => FResponseStatus
  | Call_StackSize _ => FStackSize
  | Call_Logger _ => FLogger
  | Call_ErrorHandler _ => FErrHandler
  end.

Definition value_of (k : OptionCall) : FieldValue :=
  match k with
  | Call_ContentType val => VString val
  | Call_ResponseStatus val => VInt val
  | Call_StackSize val => VInt val
  | Call_Logger logger => VLogger logger
  | Call_ErrorHandler h => VFunc h
  end.

(** An option that passes the guard of its constructor, if it has one. *)
Definition effective (k : OptionCall) : Prop :=
  match k with
  | Call_StackSize val => MinimumStackSize < val
  | _ => True
  end.

(** The stack text the guard captures in the world [s] under the
    configuration [c]: what [runtime.Stack] leaves in [buf[:n]] for a buffer
    of [c.StackSize] bytes. *)
Definition captured (c : Config) (s : World) : string :=
  string_of_list_byte
    (firstn (Z.to_nat (Config.StackSize c)) (list_byte_of_string (goroutine s))).

(** The bytes a list of lines takes when written out with one newline
    between neighbours. *)
Definition total_bytes (lines : list string) : nat :=
  (list_sum (map String.length lines) + (List.length lines - 1))%nat.

Fixpoint has_byte (a : ascii) (s : string) : bool :=
  match s with
  | EmptyString => false
  | String b s' => Ascii.eqb b a || has_byte a s'
  end.

(** The records handed to loggers and the bodies written to a response
    among a list of events. *)
Definition log_records (es : list Event) : list (log_Logger * string) :=
  flat_map (fun e => match e with Printf l t => [(l, t)] | _ => [] end) es.

Definition bodies (es : list Event) : list string :=
  flat_map (fun e => match e with WriteBody _ b => [b] | _ => [] end) es.

Definition response_calls (es : list Event) : list Event :=
  filter (fun e => match e with Printf _ _ => false | _ => true end) es.

(** The lines of the captured text, and the trace the guard keeps of them. *)
Definition captured_lines (c : Config) (s : World) : list string :=
  Split (captured c s) newline.

Definition trace (c : Config) (s : World) : list string :=
  let lines := captured_lines c s in
  if (3 <? List.length lines)%nat then skipn 3 lines else lines.

(** The message the guard builds for the value of a panic. *)
Definition message (x : dyn) : string :=
  match x with
  | DString x => "panic: " ++ x
  | DError x => "panic: " ++ Error x
  | _ => "unknown panic"
  end.

(** ** Sample inputs *)

(** The runtime of a 64-bit platform, as it is by default since Go 1.21 and
    as it was before. *)
Definition go_default : Runtime := {| maxAlloc := 2 ^ 48; panicnil := false |}.

Definition go_panicnil : Runtime := {| maxAlloc := 2 ^ 48; panicnil := true |}.

Definition sample_request : Request := {| Method := "GET"; URL := "/hello" |}.

Definition sample_stack : string :=
  "goroutine 7 [running]:" ++ nl ++
  "github.com/ikawaha/recovery.Recover.func1.1.1()" ++ nl ++
  "	/src/recovery/middleware.go:38 +0x9a" ++ nl ++
  "panic(0x6a1fc0, 0x7b2d50)" ++ nl ++
  "	/usr/local/go/src/runtime/panic.go:679 +0x1b2" ++ nl ++
  "main.hello()" ++ nl ++
  "	/src/app/main.go:12 +0x39" ++ nl.

Definition sample_world : World := {| events := []; goroutine := sample_stack |}.

(** A handler that writes part of a body and then panics with [v]. *)
Definition panicking (v : any) : Handler :=
  fun w _ => w_Write w "partial" ;;; panic v.

(** A handler that writes a body and returns. *)
Definition greeting : Handler :=
  fun w _ => w_WriteHeader w http_StatusOK ;;; w_Write w "hello".

(** A caller's error handler that writes the message and the trace as the
    body and logs nothing. *)
Definition body_handler : ErrHandlerSem :=
  fun c w msg stack =>
    w_Header_Set w "Content-Type" (Config.ContentType c) ;;;
    w_WriteHeader w (Config.ResponseStatus c) ;;;
    w_Write w (msg ++ nl ++ Join stack nl).

Definition sample_custom : nat -> ErrHandlerSem := fun _ => body_handler.

(** A stack text of 6011 bytes, longer than the default buffer. *)
Definition deep_stack : string :=
  String.concat nl (repeat "main.descend(...)" 334).

(** The logger of the package's test with options: [log.New(&buf, "", 0)]. *)
Definition buffer_logger : log_Logger := log_New (Buffer 0) "" 0.

(** The number of bytes equal to [a] in a string. *)
Fixpoint count_byte (a : ascii) (s : string) : nat :=
  match s with
  | EmptyString => O
  | String b s' => if Ascii.eqb b a then S (count_byte a s') else count_byte a s'
  end.

(** A caller's error handler that writes the status and then panics with
    the message it was given. *)
Definition failing_handler : ErrHandlerSem :=
  fun c w msg stack =>
    w_WriteHeader w (Config.ResponseStatus c) ;;; panic (Some (DString msg)).

Definition failing_custom : nat -> ErrHandlerSem := fun _ => failing_handler.

(** An option written by hand, as the type [Option] allows: it sets a
    negative stack size, which the constructor [StackSize] never does. *)
Definition negative_stack : Option :=
  fun c =>
    {| Config.ContentType := Config.ContentType c;
       Config.ResponseStatus := Config.ResponseStatus c;
       Config.StackSize := -1;
       Config.Logger := Config.Logger c;
       Config.ErrHandler := Config.ErrHandler c |}.

(** The value [recover] returns in the deferred function of the wrapper,
    for the outcome of the inner handler. *)
Definition recovered (rt : Runtime) (outcome : unit + any) : any :=
  match outcome with
  | inl _ => None
  | inr v => carried rt v
  end.

(** A handler that panics with [v] before it writes anything. *)
Definition bare_panic (v : any) : Handler := fun _ _ => panic v.

(** ** Strings, bytes and lines *)

Lemma length_string_of_list_byte (l : list byte) :
  String.length (string_of_list_byte l) = List.length l.
Proof.
  unfold string_of_list_byte.
  induction l as [|b l IH]; cbn.
  - reflexivity.
  - now rewrite IH.
Qed.

Lemma string_length_app (s t : string) :
  String.length (s ++ t) = (String.length s + String.length t)%nat.
Proof.
  induction s as [|a s IH]; simpl.
  - reflexivity.
  - now rewrite IH.
Qed.

Lemma Split_cons (s : string) (sep : ascii) :
  exists piece pieces, Split s sep = piece :: pieces.
Proof.
  destruct s as [|a s]; simpl.
  - now exists EmptyString, [].
  - destruct (Ascii.eqb a sep).
    + now exists EmptyString, (Split s sep).
    + destruct (Split s sep) as [|piece pieces].
      * now exists (String a EmptyString), [].
      * now exists (String a piece), pieces.
Qed.

Lemma concat_cons_cons (sep x y : string) (l : list string) :
  String.concat sep (x :: y :: l) = x ++ sep ++ String.concat sep (y :: l).
Proof. reflexivity. Qed.

(** Joining the pieces with the separator gives the text back. *)
Lemma Join_Split (s : string) (sep : ascii) :
  Join (Split s sep) (String sep EmptyString) = s.
Proof.
  unfold Join.
  induction s as [|a s IH].
  - reflexivity.
  - cbn [Split].
    destruct (Split_cons s sep) as (piece & pieces & E).
    rewrite E in IH |- *.
    destruct (Ascii.eqb a sep) eqn:Ea.
    + apply Ascii.eqb_eq in Ea. subst a.
      rewrite concat_cons_cons, IH. reflexivity.
    + destruct pieces as [|piece' pieces].
      * cbn in IH |- *. now rewrite IH.
      * rewrite concat_cons_cons in IH |- *.
        cbn [append] in IH |- *. now rewrite IH.
Qed.

(** No piece holds the separator. *)
Lemma Split_has_byte (s : string) (sep : ascii) :
  Forall (fun piece => has_byte sep piece = false) (Split s sep).
Proof.
  induction s as [|a s IH]; cbn [Split].
  - now repeat constructor.
  - destruct (Ascii.eqb a sep) eqn:Ea.
    + now constructor.
    + destruct (Split s sep) as [|piece pieces].
      * repeat constructor. cbn. now rewrite Ea.
      * inversion IH as [|? ? Hp Hps]; subst.
        constructor; [|assumption].
        cbn. now rewrite Ea, Hp.
Qed.

Lemma length_Join (lines : list string) :
  String.length (Join lines nl) = total_bytes lines.
Proof.
  unfold Join, total_bytes, list_sum.
  induction lines as [|x l IH]; [reflexivity|].
  destruct l as [|y l].
  - cbn [String.concat map fold_right List.length]. lia.
  - rewrite concat_cons_cons, !string_length_app, IH.
    change (String.length nl) with 1%nat.
    cbn [map fold_right List.length]. lia.
Qed.

Lemma firstn_overwritten {A} (full buf : list A) :
  let n := Nat.min (List.length full) (List.length buf) in
  firstn n (firstn n full ++ skipn n buf) = firstn (List.length buf) full.
Proof.
  intros n.
  assert (Hn : List.length (firstn n full) = n).
  { rewrite length_firstn. unfold n. lia. }
  rewrite firstn_app, Hn, Nat.sub_diag, firstn_O, app_nil_r.
  rewrite firstn_firstn, Nat.min_id.
  unfold n.
  destruct (Nat.le_ge_cases (List.length buf) (List.length full)) as [H|H].
  - now rewrite Nat.min_r.
  - rewrite Nat.min_l by assumption.
    now rewrite !firstn_all2 by lia.
Qed.

Lemma length_captured (c : Config) (s : World) :
  (String.length (captured c s) <= Z.to_nat (Config.StackSize c))%nat.
Proof.
  unfold captured.
  rewrite length_string_of_list_byte, length_firstn. lia.
Qed.

Lemma string_of_list_byte_app (xs ys : list byte) :
  string_of_list_byte (xs ++ ys) =
  string_of_list_byte xs ++ string_of_list_byte ys.
Proof.
  unfold string_of_list_byte.
  induction xs as [|b xs IH]; cbn.
  - reflexivity.
  - now rewrite IH.
Qed.

(** The captured text is the beginning of the stack text of the goroutine,
    and all of it when it fits the buffer. *)
Lemma captured_prefix (c : Config) (s : World) :
  exists rest, goroutine s = captured c s ++ rest.
Proof.
  unfold captured.
  exists (string_of_list_byte
            (skipn (Z.to_nat (Config.StackSize c))
               (list_byte_of_string (goroutine s)))).
  now rewrite <- string_of_list_byte_app, firstn_skipn,
    string_of_list_byte_of_string.
Qed.

Lemma captured_all (c : Config) (s : World) :
  (String.length (goroutine s) <= Z.to_nat (Config.StackSize c))%nat ->
  captured c s = goroutine s.
Proof.
  intros Hlen. unfold captured.
  rewrite firstn_all2.
  - apply string_of_list_byte_of_string.
  - rewrite <- length_string_of_list_byte, string_of_list_byte_of_string.
    exact Hlen.
Qed.

Lemma Split_app_sep (a b : string) (sep : ascii) :
  Split (a ++ String sep b) sep = (Split a sep ++ Split b sep)%list.
Proof.
  induction a as [|x a IH]; cbn [append Split].
  - now rewrite Ascii.eqb_refl.
  - rewrite IH.
    destruct (Ascii.eqb x sep); [reflexivity|].
    destruct (Split_cons a sep) as (piece & pieces & E).
    now rewrite E.
Qed.

Lemma Split_whole (s : string) (sep : ascii) :
  has_byte sep s = false -> Split s sep = [s].
Proof.
  induction s as [|x s IH]; cbn [has_byte Split]; intros H.
  - reflexivity.
  - apply orb_false_iff in H. destruct H as [Hx Hs].
    now rewrite Hx, (IH Hs).
Qed.

(** Cutting the joined lines gives the lines back. *)
Lemma Split_Join (lines : list string) (sep : ascii) :
  lines <> [] ->
  Forall (fun line => has_byte sep line = false) lines ->
  Split (Join lines (String sep EmptyString)) sep = lines.
Proof.
  unfold Join.
  induction lines as [|x l IH]; intros Hne Hall; [congruence|].
  inversion Hall as [|? ? Hx Hl]; subst.
  destruct l as [|y l].
  - cbn [String.concat]. now apply Split_whole.
  - rewrite concat_cons_cons. cbn [append].
    rewrite Split_app_sep, (Split_whole x sep Hx), IH; [reflexivity| |assumption].
    discriminate.
Qed.

Lemma length_Split (s : string) (sep : ascii) :
  List.length (Split s sep) = S (count_byte sep s).
Proof.
  induction s as [|x s IH]; cbn [Split count_byte].
  - reflexivity.
  - destruct (Ascii.eqb x sep).
    + cbn [List.length]. now rewrite IH.
    + destruct (Split s sep); cbn [List.length] in *; lia.
Qed.

Lemma string_app_assoc (a b c : string) : (a ++ b) ++ c = a ++ b ++ c.
Proof.
  induction a as [|x a IH]; cbn [append].
  - reflexivity.
  - now rewrite IH.
Qed.

Lemma Join_app (xs ys : list string) (sep : string) :
  xs <> [] -> ys <> [] ->
  Join (xs ++ ys) sep = Join xs sep ++ sep ++ Join ys sep.
Proof.
  unfold Join.
  induction xs as [|x xs IH]; intros Hx Hy; [congruence|].
  destruct xs as [|x' xs].
  - destruct ys as [|y ys]; [congruence|]. reflexivity.
  - change ((x :: x' :: xs) ++ ys)%list with (x :: x' :: (xs ++ ys))%list.
    rewrite !concat_cons_cons.
    change (x' :: (xs ++ ys))%list with ((x' :: xs) ++ ys)%list.
    rewrite IH by (assumption || discriminate).
    now rewrite !string_app_assoc.
Qed.

Lemma trace_lines (c : Config) (s : World) :
  trace c s <> [] /\
  Forall (fun line => has_byte newline line = false) (trace c s) /\
  List.length (trace c s) =
    (let n := S (count_byte newline (captured c s)) in
     if (3 <? n)%nat then (n - 3)%nat else n).
Proof.
  unfold trace, captured_lines.
  pose proof (length_Split (captured c s) newline) as Hlen.
  pose proof (Split_has_byte (captured c s) newline) as Hall.
  cbv zeta. rewrite <- Hlen.
  destruct (Nat.ltb_spec 3 (List.length (Split (captured c s) newline)))
    as [Hmore|Hfew].
  - split; [|split].
    + intros E. apply (f_equal (@List.length string)) in E.
      rewrite length_skipn in E. cbn [List.length] in E. lia.
    + rewrite <- (firstn_skipn 3) in Hall. now apply Forall_app in Hall.
    + apply length_skipn.
  - split; [|split; [assumption|reflexivity]].
    intros E. rewrite E in Hlen. discriminate Hlen.
Qed.

Lemma trace_tail (c : Config) (s : World) :
  ((count_byte newline (captured c s) <= 2)%nat ->
   Join (trace c s) nl = captured c s) /\
  ((3 <= count_byte newline (captured c s))%nat ->
   exists l1 l2 l3,
     has_byte newline l1 = false /\
     has_byte newline l2 = false /\
     has_byte newline l3 = false /\
     captured c s = l1 ++ nl ++ l2 ++ nl ++ l3 ++ nl ++ Join (trace c s) nl).
Proof.
  unfold trace, captured_lines.
  pose proof (length_Split (captured c s) newline) as Hlen.
  pose proof (Split_has_byte (captured c s) newline) as Hall.
  pose proof (Join_Split (captured c s) newline) as Hjoin.
  fold nl in Hjoin.
  destruct (Split (captured c s) newline) as [|l1 [|l2 [|l3 [|l4 rest]]]] eqn:E;
    cbn [List.length] in Hlen; cbv zeta; split; intros Hcount;
    try lia; try exact Hjoin.
  inversion Hall as [|? ? H1 Hall1]; subst.
  inversion Hall1 as [|? ? H2 Hall2]; subst.
  inversion Hall2 as [|? ? H3 _]; subst.
  exists l1, l2, l3. repeat (split; [assumption|]).
  rewrite <- Hjoin.
  change (l1 :: l2 :: l3 :: l4 :: rest)%list
    with ([l1; l2; l3] ++ l4 :: rest)%list.
  rewrite Join_app by discriminate.
  change (skipn 3 ([l1; l2; l3] ++ l4 :: rest)%list) with (l4 :: rest).
  cbn [List.length Nat.ltb Nat.leb].
  change (Join [l1; l2; l3] nl) with (l1 ++ nl ++ l2 ++ nl ++ l3).
  now rewrite !string_app_assoc.
Qed.

(** ** The configuration and its options *)

Lemma MinimumStackSize_eq : MinimumStackSize = 4096.
Proof. reflexivity. Qed.

Lemma apply_options_snoc (options : list Option) (o : Option) (c : Config) :
  apply_options (options ++ [o]) c = o (apply_options options c).
Proof. unfold apply_options. now rewrite fold_left_app. Qed.

Lemma apply_options_app (xs ys : list Option) (c : Config) :
  apply_options (xs ++ ys) c = apply_options ys (apply_options xs c).
Proof. unfold apply_options. now rewrite fold_left_app. Qed.

Lemma StackSize_small (val : Z) (c : Config) :
  val <= MinimumStackSize -> StackSize val c = c.
Proof.
  intros H. unfold StackSize.
  destruct (Z.leb_spec val MinimumStackSize); [reflexivity|lia].
Qed.

Lemma StackSize_large (val : Z) (c : Config) :
  MinimumStackSize < val ->
  StackSize val c =
  Config.mk (Config.ContentType c) (Config.ResponseStatus c) val
    (Config.Logger c) (Config.ErrHandler c).
Proof.
  intros H. unfold StackSize.
  destruct (Z.leb_spec val MinimumStackSize); [lia|reflexivity].
Qed.

(** An option leaves the fields it is not named after as they were. *)
Lemma option_of_frame (k : OptionCall) (c : Config) (f : Field) :
  f <> field_of k -> get f (option_of k c) = get f c.
Proof.
  intros Hf.
  destruct k as [val|val|val|logger|h]; cbn [option_of];
    try (destruct f; cbn in *; congruence).
  unfold StackSize. destruct (val <=? MinimumStackSize); [reflexivity|].
  destruct f; cbn in *; congruence.
Qed.

Lemma option_of_sets (k : OptionCall) (c : Config) :
  effective k -> get (field_of k) (option_of k c) = value_of k.
Proof.
  destruct k as [val|val|val|logger|h]; cbn [option_of effective];
    intros H; try reflexivity.
  now rewrite StackSize_large.
Qed.

Lemma option_of_floor (k : OptionCall) (c : Config) :
  MinimumStackSize <= Config.StackSize c ->
  MinimumStackSize <= Config.StackSize (option_of k c).
Proof.
  intros Hc.
  destruct k as [val|val|val|logger|h]; cbn [option_of]; try exact Hc.
  unfold StackSize.
  destruct (Z.leb_spec val MinimumStackSize); cbn [Config.StackSize];
    [exact Hc|lia].
Qed.

Lemma apply_options_floor (calls : list OptionCall) (c : Config) :
  MinimumStackSize <= Config.StackSize c ->
  MinimumStackSize <= Config.StackSize (apply_options (map option_of calls) c).
Proof.
  revert c.
  induction calls as [|k calls IH]; intros c Hc; cbn.
  - exact Hc.
  - apply IH. now apply option_of_floor.
Qed.

Lemma configured_floor (calls : list OptionCall) :
  MinimumStackSize <= Config.StackSize (configured calls).
Proof. apply apply_options_floor. reflexivity. Qed.

Lemma apply_options_frame (calls : list OptionCall) (c : Config) (f : Field) :
  Forall (fun k => field_of k <> f) calls ->
  get f (apply_options (map option_of calls) c) = get f c.
Proof.
  revert c.
  induction calls as [|k calls IH]; intros c H; cbn.
  - reflexivity.
  - inversion H as [|? ? Hk Hcalls]; subst.
    unfold apply_options in IH. rewrite IH by assumption.
    apply option_of_frame. congruence.
Qed.

Lemma apply_options_stack_source (calls : list OptionCall) (c : Config) :
  Config.StackSize (apply_options (map option_of calls) c) = Config.StackSize c \/
  (MinimumStackSize <
     Config.StackSize (apply_options (map option_of calls) c) /\
   In (Call_StackSize
         (Config.StackSize (apply_options (map option_of calls) c))) calls).
Proof.
  revert c.
  induction calls as [|k calls IH]; intros c; [now left|].
  change (apply_options (map option_of (k :: calls)) c)
    with (apply_options (map option_of calls) (option_of k c)).
  destruct (IH (option_of k c)) as [Hsame|[Hgt Hin]].
  - rewrite Hsame.
    destruct k as [v|v|v|l|h]; cbn [option_of]; try (now left).
    unfold StackSize.
    destruct (Z.leb_spec v MinimumStackSize) as [Hle|Hgt]; [now left|].
    right. cbn [Config.StackSize]. split; [exact Hgt|now left].
  - right. split; [exact Hgt|now right].
Qed.

Lemma configured_ErrHandler_last (earlier later : list OptionCall)
    (f : ErrHandlerFunc) :
  Forall (fun k => field_of k <> FErrHandler) later ->
  Config.ErrHandler (configured (earlier ++ Call_ErrorHandler f :: later)) = f.
Proof.
  intros Hlater. unfold configured.
  rewrite map_app, apply_options_app. cbn [map].
  change (apply_options (option_of (Call_ErrorHandler f) :: ?l) ?c0)
    with (apply_options l (ErrorHandler f c0)).
  pose proof (apply_options_frame later
                (ErrorHandler f (apply_options (map option_of earlier) NewConfig))
                FErrHandler Hlater) as H.
  cbn [get] in H. now injection H.
Qed.

(** ** The guard *)

Section GuardFacts.

Variable rt : Runtime.
Variable custom : nat -> ErrHandlerSem.
Variables (c : Config) (h : Handler) (w : ResponseWriter) (r : Request).

Lemma Recover_handler_returned (s s1 : World) (u : unit) :
  h w r s = (s1, inl u) ->
  Recover_handler rt custom c h w r s = (s1, inl tt).
Proof.
  intros Hh. unfold Recover_handler, defer_recover. now rewrite Hh.
Qed.

Lemma Recover_handler_nil (s s1 : World) (v : any) :
  h w r s = (s1, inr v) ->
  carried rt v = None ->
  Recover_handler rt custom c h w r s = (s1, inl tt).
Proof.
  intros Hh Hv. unfold Recover_handler, defer_recover. now rewrite Hh, Hv.
Qed.

Lemma make_bytes_granted (n : Z) (s : World) :
  0 <= n -> n <= maxAlloc rt ->
  make_bytes rt n s = (s, inl (repeat x00 (Z.to_nat n))).
Proof.
  intros Hlo Hhi. unfold make_bytes.
  destruct (Z.ltb_spec n 0); [lia|].
  destruct (Z.ltb_spec (maxAlloc rt) n); [lia|].
  reflexivity.
Qed.

Lemma make_bytes_refused (n : Z) (s : World) :
  n < 0 \/ maxAlloc rt < n ->
  make_bytes rt n s = (s, inr (runtime_Error "makeslice: len out of range")).
Proof.
  intros Hout. unfold make_bytes.
  destruct (Z.ltb_spec n 0); [reflexivity|].
  destruct (Z.ltb_spec (maxAlloc rt) n); [reflexivity|lia].
Qed.

Lemma Recover_handler_dispatch (s s1 : World) (v : any) (x : dyn) :
  h w r s = (s1, inr v) ->
  carried rt v = Some x ->
  0 <= Config.StackSize c ->
  Config.StackSize c <= maxAlloc rt ->
  Recover_handler rt custom c h w r s =
  call_ErrHandler custom (Config.ErrHandler c) c w (message x) (trace c s1) s1.
Proof.
  intros Hh Hv Hlo Hhi.
  unfold Recover_handler, defer_recover. rewrite Hh, Hv.
  unfold bind at 1. rewrite (make_bytes_granted _ s1 Hlo Hhi).
  unfold bind, runtime_Stack. cbn [fst snd].
  rewrite firstn_overwritten, repeat_length.
  reflexivity.
Qed.

(** When [make] refuses the stack size, the buffer is not made and the error
    handler is not reached: the panic of [make] leaves the wrapper. *)
Lemma Recover_handler_makeslice (s s1 : World) (v : any) (x : dyn) :
  h w r s = (s1, inr v) ->
  carried rt v = Some x ->
  Config.StackSize c < 0 \/ maxAlloc rt < Config.StackSize c ->
  Recover_handler rt custom c h w r s =
  (s1, inr (runtime_Error "makeslice: len out of range")).
Proof.
  intros Hh Hv Hout.
  unfold Recover_handler, defer_recover. rewrite Hh, Hv.
  unfold bind at 1. now rewrite (make_bytes_refused _ s1 Hout).
Qed.

End GuardFacts.

Lemma Recover_unfold (rt : Runtime) (custom : nat -> ErrHandlerSem)
    (options : list Option) (h : Handler) :
  Recover rt custom options h =
  Recover_handler rt custom (apply_options options NewConfig) h.
Proof. reflexivity. Qed.

Lemma configured_nonneg (calls : list OptionCall) :
  0 <= Config.StackSize (configured calls).
Proof.
  pose proof (configured_floor calls) as Hfloor.
  rewrite MinimumStackSize_eq in Hfloor. lia.
Qed.

Lemma Recover_configured_dispatch (rt : Runtime)
    (custom : nat -> ErrHandlerSem) (calls : list OptionCall) (h : Handler)
    (w : ResponseWriter) (r : Request) (s s1 : World) (v : any) (x : dyn) :
  h w r s = (s1, inr v) ->
  carried rt v = Some x ->
  Config.StackSize (configured calls) <= maxAlloc rt ->
  Recover rt custom (map option_of calls) h w r s =
  call_ErrHandler custom (Config.ErrHandler (configured calls))
    (configured calls) w (message x) (trace (configured calls) s1) s1.
Proof.
  intros Hh Hv Hmax. rewrite Recover_unfold.
  apply (Recover_handler_dispatch rt custom _ h w r s s1 v x Hh Hv);
    [apply configured_nonneg|exact Hmax].
Qed.

Lemma Recover_configured_makeslice (rt : Runtime)
    (custom : nat -> ErrHandlerSem) (calls : list OptionCall) (h : Handler)
    (w : ResponseWriter) (r : Request) (s s1 : World) (v : any) (x : dyn) :
  h w r s = (s1, inr v) ->
  carried rt v = Some x ->
  maxAlloc rt < Config.StackSize (configured calls) ->
  Recover rt custom (map option_of calls) h w r s =
  (s1, inr (runtime_Error "makeslice: len out of range")).
Proof.
  intros Hh Hv Hmax. rewrite Recover_unfold.
  apply (Recover_handler_makeslice rt custom _ h w r s s1 v x Hh Hv).
  now right.
Qed.

(** ** The default error handler *)

Lemma log_records_app (xs ys : list Event) :
  log_records (xs ++ ys) = (log_records xs ++ log_records ys)%list.
Proof. apply flat_map_app. Qed.

Lemma wroteHeader_app (w : ResponseWriter) (xs ys : list Event) :
  wroteHeader w (xs ++ ys) = wroteHeader w xs || wroteHeader w ys.
Proof. apply existsb_app. Qed.

(** What the default error handler does with a logger that is not nil: the
    record, the header, and then the status, unless the writer refuses it. *)
Lemma DefaultErrorHandler_cases (c : Config) (w : ResponseWriter)
    (msg : string) (stack : list string) (s : World) :
  Config.Logger c <> nil_Logger ->
  let logged :=
    [Printf (Config.Logger c) (msg ++ nl ++ Join stack nl);
     Header_Set w "Content-Type" (Config.ContentType c)] in
  let code := Config.ResponseStatus c in
  DefaultErrorHandler c w msg stack s =
  if negb (wroteHeader w (events s)) && ((code <? 100) || (999 <? code))
  then ({| events := (events s ++ logged)%list; goroutine := goroutine s |},
        inr (Some (DString ("invalid WriteHeader code " ++
                            NilZero.string_of_int (Z.to_int code)))))
  else ({| events := (events s ++ logged ++ [WriteHeader w code])%list;
           goroutine := goroutine s |}, inl tt).
Proof.
  intros Hlog logged code.
  unfold DefaultErrorHandler, Logger_Printf.
  destruct (Config.Logger c) as [|o p f] eqn:El; [congruence|].
  unfold bind, w_Header_Set, w_WriteHeader, emit, panic.
  cbn [events goroutine].
  rewrite <- !app_assoc. cbn [app].
  rewrite wroteHeader_app. cbn [wroteHeader existsb]. rewrite orb_false_r.
  fold code.
  destruct (negb (wroteHeader w (events s)) && ((code <? 100) || (999 <? code))).
  - reflexivity.
  - reflexivity.
Qed.

Lemma DefaultErrorHandler_run (c : Config) (w : ResponseWriter) (msg : string)
    (stack : list string) (s : World) :
  Config.Logger c <> nil_Logger ->
  100 <= Config.ResponseStatus c <= 999 ->
  DefaultErrorHandler c w msg stack s =
  ({| events :=
        (events s ++
         [Printf (Config.Logger c) (msg ++ nl ++ Join stack nl);
          Header_Set w "Content-Type" (Config.ContentType c);
          WriteHeader w (Config.ResponseStatus c)])%list;
      goroutine := goroutine s |}, inl tt).
Proof.
  intros Hlog Hcode.
  rewrite (DefaultErrorHandler_cases c w msg stack s Hlog). cbv zeta.
  destruct (Z.ltb_spec (Config.ResponseStatus c) 100); [lia|].
  destruct (Z.ltb_spec 999 (Config.ResponseStatus c)); [lia|].
  now rewrite andb_false_r.
Qed.

Lemma DefaultErrorHandler_nil_Logger (c : Config) (w : ResponseWriter)
    (msg : string) (stack : list string) (s : World) :
  Config.Logger c = nil_Logger ->
  DefaultErrorHandler c w msg stack s = (s, inr nil_dereference).
Proof.
  intros Hlog. unfold DefaultErrorHandler, Logger_Printf. now rewrite Hlog.
Qed.

(** With a logger that is not nil, the default error handler adds one record
    to the log, whatever else it is called with. *)
Lemma DefaultErrorHandler_logs_once (c : Config) (w : ResponseWriter)
    (msg : string) (stack : list string) (s : World) :
  Config.Logger c <> nil_Logger ->
  log_records (events (fst (DefaultErrorHandler c w msg stack s))) =
  (log_records (events s) ++
   [(Config.Logger c, (msg ++ nl ++ Join stack nl)%string)])%list.
Proof.
  intros Hlog.
  rewrite (DefaultErrorHandler_cases c w msg stack s Hlog). cbv zeta.
  destruct (negb (wroteHeader w (events s)) && _);
    cbn [fst events]; now rewrite log_records_app.
Qed.

Lemma world_app_nil (s : World) :
  {| events := (events s ++ [])%list; goroutine := goroutine s |} = s.
Proof. destruct s. cbn. now rewrite app_nil_r. Qed.

(** ** The properties of the specification *)

(** C3: when the inner handler returns normally the wrapper is transparent:
    the world after the wrapped handler is the world the inner handler left,
    so the wrapper has written nothing to the response and nothing to a
    logger, and what the inner handler wrote is as it was; the wrapper
    returns normally too. This holds for every list of options and on every
    runtime. *)
Theorem Recover_transparent (rt : Runtime) (custom : nat -> ErrHandlerSem)
    (options : list Option) (h : Handler) (w : ResponseWriter) (r : Request)
    (s s1 : World) :
  h w r s = (s1, inl tt) ->
  Recover rt custom options h w r s = (s1, inl tt) /\
  events (fst (Recover rt custom options h w r s)) = events s1.
Proof.
  intros Hh. rewrite Recover_unfold.
  rewrite (Recover_handler_returned rt custom _ h w r s s1 tt Hh).
  now split.
Qed.

Lemma Recover_transparent_witness :
  greeting 1%nat sample_request sample_world =
  ({| events := [WriteHeader 1%nat 200; WriteBody 1%nat "hello"];
      goroutine := sample_stack |}, inl tt) /\
  events (fst (Recover go_default sample_custom
                 [StackSize 8192; ContentType "text/plain"]
                 greeting 1%nat sample_request sample_world)) =
  [WriteHeader 1%nat 200; WriteBody 1%nat "hello"].
Proof.
  split; [reflexivity|].
  apply (Recover_transparent go_default sample_custom
           [StackSize 8192; ContentType "text/plain"] greeting 1%nat
           sample_request sample_world
           {| events := [WriteHeader 1%nat 200; WriteBody 1%nat "hello"];
              goroutine := sample_stack |}).
  reflexivity.
Defined.

(** C10, as stated, fails on the runtime that is the default since Go 1.21:
    there [panic(nil)] carries a [*runtime.PanicNilError], the value
    [recover] returns is not nil, and the wrapper calls the error handler,
    which here writes a log record. *)
Lemma Recover_nil_panic_dispatched :
  snd (panicking None 1%nat sample_request sample_world) = inr None /\
  List.length (log_records (events (fst
    (Recover go_default sample_custom [] (panicking None) 1%nat
       sample_request sample_world)))) = 1%nat /\
  Recover go_default sample_custom [] (panicking None) 1%nat sample_request
    sample_world <>
  (fst (panicking None 1%nat sample_request sample_world), inl tt).
Proof.
  split; [reflexivity|]. split; [reflexivity|].
  intros E.
  apply (f_equal (fun p => List.length (events (fst p)))) in E.
  vm_compute in E. discriminate E.
Qed.

(** C10, amended: when the inner handler panics with a nil value on a
    runtime where [recover] returns nil for it (a release before Go 1.21, or
    [GODEBUG=panicnil=1]), the wrapper stops the panic and returns normally,
    and the world is the one the inner handler left: the error handler is
    not called, no message or trace is built, and nothing is written to the
    response or to a logger. On the other runtimes the panic carries a
    [*runtime.PanicNilError] and the wrapper, when [make] grants the stack
    size, calls the error handler with the message of that error. *)
Theorem Recover_nil_panic (rt : Runtime) (custom : nat -> ErrHandlerSem)
    (h : Handler) (w : ResponseWriter) (r : Request) (s s1 : World) :
  h w r s = (s1, inr None) ->
  (panicnil rt = true ->
   forall options, Recover rt custom options h w r s = (s1, inl tt)) /\
  (panicnil rt = false ->
   forall calls,
     let c := configured calls in
     Config.StackSize c <= maxAlloc rt ->
     Recover rt custom (map option_of calls) h w r s =
     call_ErrHandler custom (Config.ErrHandler c) c w
       ("panic: " ++ Error runtime_PanicNilError) (trace c s1) s1).
Proof.
  intros Hh. split.
  - intros Hnil options. rewrite Recover_unfold.
    apply (Recover_handler_nil rt custom _ h w r s s1 None Hh).
    cbn. now rewrite Hnil.
  - intros Hnil calls c Hmax.
    apply (Recover_configured_dispatch rt custom calls h w r s s1 None
             (DError runtime_PanicNilError) Hh); [|exact Hmax].
    cbn. now rewrite Hnil.
Qed.

Lemma Recover_nil_panic_witness :
  panicking None 1%nat sample_request sample_world =
  ({| events := [WriteBody 1%nat "partial"]; goroutine := sample_stack |},
   inr None) /\
  Recover go_panicnil sample_custom [ErrorHandler (Custom_func 0)]
    (panicking None) 1%nat sample_request sample_world =
  ({| events := [WriteBody 1%nat "partial"]; goroutine := sample_stack |},
   inl tt).
Proof.
  split; [reflexivity|].
  apply (proj1 (Recover_nil_panic go_panicnil sample_custom (panicking None)
                  1%nat sample_request sample_world
                  {| events := [WriteBody 1%nat "partial"];
                     goroutine := sample_stack |} eq_refl) eq_refl).
Defined.

(** C1 fails on the code for a stack size that [make] refuses, which the
    option [StackSize] accepts: the deferred function stops the panic of the
    inner handler and builds the message, then [make] panics before the
    error handler is called. The abort is not handed to the error handler,
    and a panic leaves the wrapper, in the world the inner handler left. *)
Theorem Recover_oversized_StackSize (rt : Runtime)
    (custom : nat -> ErrHandlerSem) (calls : list OptionCall) (h : Handler)
    (w : ResponseWriter) (r : Request) (s s1 : World) (v : any) (x : dyn) :
  h w r s = (s1, inr v) ->
  carried rt v = Some x ->
  maxAlloc rt < Config.StackSize (configured calls) ->
  Recover rt custom (map option_of calls) h w r s =
  (s1, inr (runtime_Error "makeslice: len out of range")).
Proof.
  intros Hh Hv Hmax. rewrite Recover_unfold.
  unfold Recover_handler, defer_recover. rewrite Hh, Hv.
  unfold bind at 1. fold (configured calls).
  now rewrite (make_bytes_refused rt _ s1 (or_intror Hmax)).
Qed.

Lemma Recover_oversized_StackSize_witness :
  Recover go_default sample_custom (map option_of [Call_StackSize (2 ^ 62)])
    (panicking (Some (DString "boom"))) 1%nat sample_request sample_world =
  ({| events := [WriteBody 1%nat "partial"]; goroutine := sample_stack |},
   inr (Some (DError
     {| Error := "runtime error: makeslice: len out of range" |}))).
Proof.
  apply (Recover_oversized_StackSize go_default sample_custom
           [Call_StackSize (2 ^ 62)] (panicking (Some (DString "boom"))) 1%nat
           sample_request sample_world
           {| events := [WriteBody 1%nat "partial"];
              goroutine := sample_stack |}
           (Some (DString "boom")) (DString "boom")).
  - reflexivity.
  - reflexivity.
  - vm_compute. reflexivity.
Defined.

(** C2: for every panic the wrapper intercepts (the value [recover] returns
    is not nil) and hands to the error handler (which it does whenever
    [make] grants the stack size), the message is fixed by a three-way
    classification of the value: for a string [t] it is ["panic: " ++ t],
    for an error it is ["panic: "] followed by the description of the error,
    and for every other value it is the literal ["unknown panic"]. *)
Theorem Recover_message (rt : Runtime) (calls : list OptionCall) (h : Handler)
    (w : ResponseWriter) (r : Request) (s s1 : World) (v : any) (x : dyn) :
  h w r s = (s1, inr v) ->
  carried rt v = Some x ->
  let c := configured calls in
  Config.StackSize c <= maxAlloc rt ->
  exists msg stack,
    (forall custom,
       Recover rt custom (map option_of calls) h w r s =
       call_ErrHandler custom (Config.ErrHandler c) c w msg stack s1) /\
    (forall t, x = DString t -> msg = "panic: " ++ t) /\
    (forall e, x = DError e -> msg = "panic: " ++ Error e) /\
    ((forall t, x <> DString t) -> (forall e, x <> DError e) ->
     msg = "unknown panic").
Proof.
  intros Hh Hv c Hmax.
  exists (message x), (trace c s1).
  split; [|repeat split].
  - intros custom. now apply (Recover_configured_dispatch rt custom calls h w r s s1 v).
  - intros t ->. reflexivity.
  - intros e ->. reflexivity.
  - intros Hstr Herr.
    destruct x as [t|e|n|b|ty]; try reflexivity.
    + now elim (Hstr t).
    + now elim (Herr e).
Qed.

Lemma Recover_message_witness :
  exists msg,
    msg = "panic: aloha" /\
    exists stack, forall custom,
      Recover go_default custom
        (map option_of [Call_ErrorHandler (Custom_func 0)])
        (panicking (Some (DError {| Error := "aloha" |}))) 1%nat
        sample_request sample_world =
      custom 0%nat (configured [Call_ErrorHandler (Custom_func 0)]) 1%nat msg
        stack
        {| events := [WriteBody 1%nat "partial"]; goroutine := sample_stack |}.
Proof.
  destruct (Recover_message go_default [Call_ErrorHandler (Custom_func 0)]
              (panicking (Some (DError {| Error := "aloha" |}))) 1%nat
              sample_request sample_world
              {| events := [WriteBody 1%nat "partial"];
                 goroutine := sample_stack |}
              (Some (DError {| Error := "aloha" |}))
              (DError {| Error := "aloha" |}) eq_refl eq_refl
              ltac:(vm_compute; discriminate))
    as (msg & stack & Hrun & _ & Herr & _).
  exists msg. split.
  - exact (Herr {| Error := "aloha" |} eq_refl).
  - exists stack. exact Hrun.
Defined.

(** C5: for every panic the wrapper intercepts and hands to the error
    handler, the captured stack text is cut into lines at its newlines
    (joining the lines with newlines gives the text back, and no line holds
    a newline), and the trace handed to the error handler is that list
    without its first 3 lines when it has more than 3 lines, and the whole
    list when it has 3 lines or fewer. *)
Theorem Recover_trace_trimmed (rt : Runtime) (calls : list OptionCall)
    (h : Handler) (w : ResponseWriter) (r : Request) (s s1 : World) (v : any)
    (x : dyn) :
  h w r s = (s1, inr v) ->
  carried rt v = Some x ->
  let c := configured calls in
  let text := captured c s1 in
  let lines := Split text newline in
  Config.StackSize c <= maxAlloc rt ->
  Join lines nl = text /\
  Forall (fun line => has_byte newline line = false) lines /\
  exists stack,
    (forall custom,
       Recover rt custom (map option_of calls) h w r s =
       call_ErrHandler custom (Config.ErrHandler c) c w (message x) stack s1) /\
    ((3 < List.length lines)%nat -> stack = skipn 3 lines) /\
    ((List.length lines <= 3)%nat -> stack = lines).
Proof.
  intros Hh Hv c text lines Hmax.
  split; [apply Join_Split|].
  split; [apply Split_has_byte|].
  exists (trace c s1).
  split; [|split].
  - intros custom. now apply (Recover_configured_dispatch rt custom calls h w r s s1 v).
  - intros Hlen. unfold trace, captured_lines. fold text. fold lines.
    destruct (Nat.ltb_spec 3 (List.length lines)); [reflexivity|lia].
  - intros Hlen. unfold trace, captured_lines. fold text. fold lines.
    destruct (Nat.ltb_spec 3 (List.length lines)); [lia|reflexivity].
Qed.

Lemma Recover_trace_trimmed_witness :
  exists stack,
    stack = ["panic(0x6a1fc0, 0x7b2d50)";
             "	/usr/local/go/src/runtime/panic.go:679 +0x1b2";
             "main.hello()";
             "	/src/app/main.go:12 +0x39";
             ""] /\
    forall custom,
      Recover go_default custom
        (map option_of [Call_ErrorHandler (Custom_func 0)])
        (panicking (Some (DString "!!!"))) 1%nat sample_request sample_world =
      custom 0%nat (configured [Call_ErrorHandler (Custom_func 0)]) 1%nat
        "panic: !!!" stack
        {| events := [WriteBody 1%nat "partial"]; goroutine := sample_stack |}.
Proof.
  destruct (Recover_trace_trimmed go_default
              [Call_ErrorHandler (Custom_func 0)]
              (panicking (Some (DString "!!!"))) 1%nat sample_request
              sample_world
              {| events := [WriteBody 1%nat "partial"];
                 goroutine := sample_stack |}
              (Some (DString "!!!")) (DString "!!!") eq_refl eq_refl
              ltac:(vm_compute; discriminate))
    as (_ & _ & stack & Hrun & Hmore & _).
  exists stack. split.
  - rewrite Hmore; [reflexivity|]. vm_compute. lia.
  - exact Hrun.
Defined.

(** The steps of the capture: when [make] grants the stack size the buffer
    has [StackSize] bytes, and [runtime.Stack] fills the first [n] of them,
    which hold the captured text. *)
Lemma capture_steps (rt : Runtime) (c : Config) (s : World) :
  0 <= Config.StackSize c ->
  Config.StackSize c <= maxAlloc rt ->
  exists buf buf' n,
    make_bytes rt (Config.StackSize c) s = (s, inl buf) /\
    List.length buf = Z.to_nat (Config.StackSize c) /\
    runtime_Stack buf s = (s, inl (buf', n)) /\
    (n <= List.length buf)%nat /\
    string_of_list_byte (firstn n buf') = captured c s.
Proof.
  intros Hlo Hhi.
  eexists _, _, _.
  split; [now apply make_bytes_granted|].
  split; [apply repeat_length|].
  split; [reflexivity|].
  split; [apply Nat.le_min_r|].
  rewrite firstn_overwritten, repeat_length. reflexivity.
Qed.

(** C9: for every panic the wrapper intercepts, when [make] grants the
    stack size, the stack text is captured into a buffer of exactly
    [StackSize] bytes, of which [runtime.Stack] fills the first [n]: the
    captured text is the beginning of the stack text of the goroutine (all
    of it when it fits), its length in bytes, which is the length of its
    lines plus the newlines between them before the first 3 lines are
    dropped, is at most [StackSize], and the trace handed to the error
    handler is made of its lines. *)
Theorem Recover_stack_bounded (rt : Runtime) (calls : list OptionCall)
    (h : Handler) (w : ResponseWriter) (r : Request) (s s1 : World) (v : any)
    (x : dyn) :
  h w r s = (s1, inr v) ->
  carried rt v = Some x ->
  let c := configured calls in
  let text := captured c s1 in
  let lines := Split text newline in
  Config.StackSize c <= maxAlloc rt ->
  (forall custom,
     Recover rt custom (map option_of calls) h w r s =
     call_ErrHandler custom (Config.ErrHandler c) c w (message x)
       (if (3 <? List.length lines)%nat then skipn 3 lines else lines) s1) /\
  (exists buf buf' n,
     make_bytes rt (Config.StackSize c) s1 = (s1, inl buf) /\
     List.length buf = Z.to_nat (Config.StackSize c) /\
     runtime_Stack buf s1 = (s1, inl (buf', n)) /\
     (n <= List.length buf)%nat /\
     string_of_list_byte (firstn n buf') = text) /\
  (exists rest, goroutine s1 = text ++ rest) /\
  ((String.length (goroutine s1) <= Z.to_nat (Config.StackSize c))%nat ->
   text = goroutine s1) /\
  total_bytes lines = String.length text /\
  Z.of_nat (total_bytes lines) <= Config.StackSize c.
Proof.
  intros Hh Hv c text lines Hmax.
  assert (Hbytes : total_bytes lines = String.length text).
  { rewrite <- length_Join. unfold lines, nl. now rewrite Join_Split. }
  pose proof (configured_nonneg calls) as Hlo. fold c in Hlo.
  split; [|split; [|split; [|split; [|split]]]].
  - intros custom. now apply (Recover_configured_dispatch rt custom calls h w r s s1 v).
  - now apply capture_steps.
  - apply captured_prefix.
  - apply captured_all.
  - exact Hbytes.
  - rewrite Hbytes.
    pose proof (length_captured c s1) as Hlen. fold text in Hlen. lia.
Qed.

Lemma Recover_stack_bounded_witness :
  Z.of_nat (total_bytes (Split
     (captured (configured [Call_StackSize 1])
        {| events := [WriteBody 1%nat "partial"]; goroutine := sample_stack |})
     newline)) <= 4096.
Proof.
  apply (proj2 (proj2 (proj2 (proj2 (proj2
    (Recover_stack_bounded go_default [Call_StackSize 1]
       (panicking (Some (DString "!!!"))) 1%nat sample_request sample_world
       {| events := [WriteBody 1%nat "partial"]; goroutine := sample_stack |}
       (Some (DString "!!!")) (DString "!!!") eq_refl eq_refl
       ltac:(vm_compute; discriminate))))))).
Defined.

(** C4, as stated, fails for a configuration whose status no response
    writer accepts: the default error handler writes the log record and sets
    the header, and then [WriteHeader] panics, so that no status line is
    written and the handler does not return. *)
Lemma DefaultErrorHandler_invalid_status :
  DefaultErrorHandler (ResponseStatus 0 NewConfig) 1%nat "panic: !!!" ["main.hello()"]
    {| events := []; goroutine := "" |} =
  ({| events :=
        [Printf (log_New os_Stderr "" 3) ("panic: !!!" ++ nl ++ "main.hello()");
         Header_Set 1%nat "Content-Type" "application/json"];
      goroutine := "" |},
   inr (Some (DString "invalid WriteHeader code 0"))).
Proof. reflexivity. Qed.

(** C4, amended: for every configuration whose logger is not nil and whose
    response status is between 100 and 999, and for every message and trace,
    the default error handler returns normally after exactly three calls, in
    this order: one record handed to the logger of the configuration, made
    of the message, a newline, and the lines of the trace joined with
    newlines; the header [Content-Type] of the response set to the content
    type of the configuration; and [WriteHeader] with the response status
    of the configuration. It writes no body. *)
Theorem DefaultErrorHandler_effect (c : Config) (w : ResponseWriter)
    (msg : string) (stack : list string) (s : World) :
  Config.Logger c <> nil_Logger ->
  100 <= Config.ResponseStatus c <= 999 ->
  exists new,
    DefaultErrorHandler c w msg stack s =
    ({| events := (events s ++ new)%list; goroutine := goroutine s |}, inl tt) /\
    new = [Printf (Config.Logger c) (msg ++ nl ++ Join stack nl);
           Header_Set w "Content-Type" (Config.ContentType c);
           WriteHeader w (Config.ResponseStatus c)] /\
    log_records new = [(Config.Logger c, msg ++ nl ++ String.concat nl stack)] /\
    response_calls new =
      [Header_Set w "Content-Type" (Config.ContentType c);
       WriteHeader w (Config.ResponseStatus c)] /\
    bodies new = [].
Proof.
  intros Hlog Hcode.
  eexists. split; [now apply DefaultErrorHandler_run|].
  repeat split.
Qed.

Lemma DefaultErrorHandler_effect_witness :
  exists new,
    DefaultErrorHandler NewConfig 1%nat "panic: !!!" ["main.hello()"]
      {| events := []; goroutine := "" |} =
    ({| events := new; goroutine := "" |}, inl tt) /\
    new = [Printf (log_New os_Stderr "" 3) ("panic: !!!" ++ nl ++ "main.hello()");
           Header_Set 1%nat "Content-Type" "application/json";
           WriteHeader 1%nat 500].
Proof.
  destruct (DefaultErrorHandler_effect NewConfig 1%nat "panic: !!!"
              ["main.hello()"] {| events := []; goroutine := "" |}
              ltac:(discriminate) ltac:(vm_compute; split; discriminate))
    as (new & Hrun & Hnew & _).
  exists new. split; [exact Hrun|exact Hnew].
Defined.

(** C6: [MinimumStackSize] is 4096. For every configuration and every value
    at most [MinimumStackSize], the option [StackSize] of that value leaves
    the configuration, and so its stack size, as it was; for a larger value
    the stack size becomes that value and the other fields stay. *)
Theorem StackSize_floor (val : Z) (c : Config) :
  MinimumStackSize = 4096 /\
  (val <= MinimumStackSize -> StackSize val c = c) /\
  (MinimumStackSize < val ->
   Config.StackSize (StackSize val c) = val /\
   forall f, f <> FStackSize -> get f (StackSize val c) = get f c).
Proof.
  split; [reflexivity|split].
  - apply StackSize_small.
  - intros H. rewrite StackSize_large by exact H.
    split; [reflexivity|].
    intros f Hf. destruct f; try reflexivity. congruence.
Qed.

Lemma StackSize_floor_witness :
  StackSize 4096 (StackSize 8192 NewConfig) = StackSize 8192 NewConfig /\
  Config.StackSize (StackSize 4097 NewConfig) = 4097.
Proof.
  split.
  - apply (proj1 (proj2 (StackSize_floor 4096 (StackSize 8192 NewConfig)))).
    vm_compute. discriminate.
  - apply (proj2 (proj2 (StackSize_floor 4097 NewConfig))).
    vm_compute. reflexivity.
Defined.

(** C7: the stack size of the default configuration is at least
    [MinimumStackSize] (4096), every option of the package keeps it so, and
    hence so is the stack size of the configuration built from every
    sequence of such options. *)
Theorem StackSize_invariant :
  MinimumStackSize = 4096 /\
  MinimumStackSize <= Config.StackSize NewConfig /\
  (forall k c,
     MinimumStackSize <= Config.StackSize c ->
     MinimumStackSize <= Config.StackSize (option_of k c)) /\
  (forall calls,
     MinimumStackSize <=
     Config.StackSize (apply_options (map option_of calls) NewConfig)).
Proof.
  split; [reflexivity|].
  split; [reflexivity|].
  split.
  - intros k c. apply option_of_floor.
  - apply configured_floor.
Qed.

Lemma StackSize_invariant_witness :
  MinimumStackSize <=
  Config.StackSize (option_of (Call_StackSize 1) (ResponseStatus 200 NewConfig)).
Proof.
  apply (proj1 (proj2 (proj2 StackSize_invariant))).
  vm_compute. discriminate.
Defined.

(** C8, as stated, fails: of two options for the stack size, the later one
    does not win when its value is at most [MinimumStackSize]. *)
Lemma later_StackSize_ignored :
  Config.StackSize (apply_options [StackSize 8192; StackSize 1] NewConfig) <> 1.
Proof. vm_compute. discriminate. Qed.

(** C8, amended: options are applied in the order supplied to [Recover];
    each option of the package leaves every field other than the one it is
    named after as it was; and when several such options are named after
    the same field, the value of the last of them is the value of the field
    in the final configuration, except that an option [StackSize] whose
    value is at most [MinimumStackSize] changes nothing, so that the result
    is the same as without it. *)
Theorem options_in_order :
  (forall rt custom options h,
     Recover rt custom options h =
     Recover_handler rt custom (apply_options options NewConfig) h) /\
  (forall c, apply_options [] c = c) /\
  (forall options o c,
     apply_options (options ++ [o]) c = o (apply_options options c)) /\
  (forall k c f, f <> field_of k -> get f (option_of k c) = get f c) /\
  (forall earlier k later c,
     Forall (fun k' => field_of k' <> field_of k) later ->
     effective k ->
     get (field_of k)
       (apply_options (map option_of (earlier ++ k :: later)) c) =
     value_of k) /\
  (forall earlier val later c,
     val <= MinimumStackSize ->
     apply_options (map option_of (earlier ++ Call_StackSize val :: later)) c =
     apply_options (map option_of (earlier ++ later)) c).
Proof.
  split; [reflexivity|].
  split; [reflexivity|].
  split; [apply apply_options_snoc|].
  split; [apply option_of_frame|].
  split.
  - intros earlier k later c Hlater Hk.
    rewrite map_app, apply_options_app. cbn [map].
    change (apply_options (option_of k :: map option_of later) ?c0)
      with (apply_options (map option_of later) (option_of k c0)).
    rewrite apply_options_frame by exact Hlater.
    now apply option_of_sets.
  - intros earlier val later c Hval.
    rewrite !map_app, !apply_options_app. cbn [map].
    change (apply_options (option_of (Call_StackSize val) :: ?l) ?c0)
      with (apply_options l (StackSize val c0)).
    now rewrite StackSize_small.
Qed.

Lemma options_in_order_witness :
  get FContentType
    (apply_options
       (map option_of
          ([Call_ContentType "text/plain"] ++
           Call_ContentType "application/xml" ::
           [Call_StackSize 1; Call_ResponseStatus 200])) NewConfig) =
  VString "application/xml".
Proof.
  apply (proj1 (proj2 (proj2 (proj2 (proj2 options_in_order))))
           [Call_ContentType "text/plain"]
           (Call_ContentType "application/xml")
           [Call_StackSize 1; Call_ResponseStatus 200] NewConfig).
  - repeat constructor; discriminate.
  - exact I.
Defined.

(** ** Further properties of the package *)

(** *** Options *)

(** X1: two options of the package that are named after different fields
    commute: applied in either order they give the same configuration. *)
Theorem options_commute (k1 k2 : OptionCall) (c : Config) :
  field_of k1 <> field_of k2 ->
  option_of k1 (option_of k2 c) = option_of k2 (option_of k1 c).
Proof.
  intros Hdiff.
  destruct k1 as [v1|v1|v1|l1|h1], k2 as [v2|v2|v2|l2|h2];
    cbn [field_of] in Hdiff; try congruence;
    cbn [option_of]; unfold StackSize;
    try destruct (v1 <=? MinimumStackSize);
    try destruct (v2 <=? MinimumStackSize);
    reflexivity.
Qed.

Lemma options_commute_witness :
  StackSize 8192 (Logger buffer_logger NewConfig) =
  Logger buffer_logger (StackSize 8192 NewConfig).
Proof.
  apply (options_commute (Call_StackSize 8192) (Call_Logger buffer_logger)
           NewConfig).
  discriminate.
Defined.

(** X2: an option of the package applied twice in a row does what it does
    applied once. *)
Theorem option_idempotent (k : OptionCall) (c : Config) :
  option_of k (option_of k c) = option_of k c.
Proof.
  destruct k as [v|v|v|l|h]; cbn [option_of]; try reflexivity.
  unfold StackSize.
  destruct (v <=? MinimumStackSize); reflexivity.
Qed.

(** X3: a field that none of the supplied options is named after keeps the
    value [NewConfig] gives it: the content type [application/json], the
    status 500, the stack size 4096, the logger on the standard error
    stream, or the default error handler. *)
Theorem unset_field_default (calls : list OptionCall) (f : Field) :
  Forall (fun k => field_of k <> f) calls ->
  get f (configured calls) = get f NewConfig /\
  get f NewConfig =
    match f with
    | FContentType => VString "application/json"
    | FResponseStatus => VInt 500
    | FStackSize => VInt 4096
    | FLogger => VLogger (log_New os_Stderr "" 3)
    | FErrHandler => VFunc DefaultErrorHandler_func
    end.
Proof.
  intros H. split.
  - now apply apply_options_frame.
  - now destruct f.
Qed.

Lemma unset_field_default_witness :
  get FErrHandler
    (configured [Call_ContentType "text/html"; Call_StackSize 9000]) =
  VFunc DefaultErrorHandler_func.
Proof.
  apply (proj1 (unset_field_default
                  [Call_ContentType "text/html"; Call_StackSize 9000]
                  FErrHandler
                  ltac:(repeat constructor; discriminate))).
Defined.

(** X4: the stack size of the configuration [Recover] builds is never a
    value nobody asked for: it is the default 4096, or a value larger than
    4096 that one of the supplied [StackSize] options carries. *)
Theorem StackSize_supplied (calls : list OptionCall) :
  let size := Config.StackSize (configured calls) in
  size = 4096 \/ (4096 < size /\ In (Call_StackSize size) calls).
Proof.
  cbv zeta. unfold configured.
  destruct (apply_options_stack_source calls NewConfig) as [H|H].
  - left. rewrite H. reflexivity.
  - right. now rewrite MinimumStackSize_eq in H.
Qed.

(** *** The wrapper and the error handler *)

(** X5: a panic of the error handler is not caught: when the inner handler
    panics, [recover] returns a non-nil value, [make] grants the stack size,
    and the configured error handler, called with the message and the trace
    of that panic, panics with [v'], the wrapped handler panics with [v'],
    in the world the error handler left. *)
Theorem dispatch_panic_propagates (rt : Runtime)
    (custom : nat -> ErrHandlerSem) (calls : list OptionCall) (h : Handler)
    (w : ResponseWriter) (r : Request) (s s1 s2 : World) (v v' : any)
    (x : dyn) :
  let c := configured calls in
  h w r s = (s1, inr v) ->
  carried rt v = Some x ->
  Config.StackSize c <= maxAlloc rt ->
  call_ErrHandler custom (Config.ErrHandler c) c w (message x) (trace c s1) s1 =
    (s2, inr v') ->
  Recover rt custom (map option_of calls) h w r s = (s2, inr v').
Proof.
  intros c Hh Hv Hmax Hfail.
  now rewrite (Recover_configured_dispatch rt custom calls h w r s s1 v x
                 Hh Hv Hmax).
Qed.

Lemma dispatch_panic_propagates_witness :
  Recover go_default failing_custom
    (map option_of [Call_ErrorHandler (Custom_func 0)])
    (panicking (Some (DString "!!!"))) 1%nat sample_request sample_world =
  ({| events := [WriteBody 1%nat "partial"; WriteHeader 1%nat 500];
      goroutine := sample_stack |},
   inr (Some (DString "panic: !!!"))).
Proof.
  apply (dispatch_panic_propagates go_default failing_custom
           [Call_ErrorHandler (Custom_func 0)]
           (panicking (Some (DString "!!!"))) 1%nat sample_request
           sample_world
           {| events := [WriteBody 1%nat "partial"];
              goroutine := sample_stack |}
           {| events := [WriteBody 1%nat "partial"; WriteHeader 1%nat 500];
              goroutine := sample_stack |}
           (Some (DString "!!!")) (Some (DString "panic: !!!"))
           (DString "!!!")).
  - reflexivity.
  - reflexivity.
  - vm_compute. discriminate.
  - reflexivity.
Defined.

(** X6: with a negative stack size, which only an option written by hand
    can set, a panic of the inner handler with a non-nil value is replaced
    by the run-time panic of [make]: the error handler is not called and
    the world stays as the inner handler left it. *)
Theorem negative_StackSize_panics (rt : Runtime)
    (custom : nat -> ErrHandlerSem) (options : list Option) (h : Handler)
    (w : ResponseWriter) (r : Request) (s s1 : World) (x : dyn) :
  Config.StackSize (apply_options options NewConfig) < 0 ->
  h w r s = (s1, inr (Some x)) ->
  Recover rt custom options h w r s =
  (s1, inr (Some (DError
     {| Error := "runtime error: makeslice: len out of range" |}))).
Proof.
  intros Hneg Hh. rewrite Recover_unfold.
  apply (Recover_handler_makeslice rt custom _ h w r s s1 (Some x) x Hh);
    [reflexivity|now left].
Qed.

Lemma negative_StackSize_panics_witness :
  Recover go_default sample_custom [StackSize 8192; negative_stack]
    (panicking (Some (DInt 7))) 1%nat sample_request sample_world =
  ({| events := [WriteBody 1%nat "partial"]; goroutine := sample_stack |},
   inr (Some (DError
     {| Error := "runtime error: makeslice: len out of range" |}))).
Proof.
  apply (negative_StackSize_panics go_default sample_custom
           [StackSize 8192; negative_stack] (panicking (Some (DInt 7))) 1%nat
           sample_request sample_world
           {| events := [WriteBody 1%nat "partial"];
              goroutine := sample_stack |} (DInt 7)).
  - vm_compute. reflexivity.
  - reflexivity.
Defined.

(** X7: with the default error handler, a logger that is not nil, a
    response status between 100 and 999 and a stack size [make] grants, the
    wrapped handler always returns normally, whatever the inner handler
    does. It keeps what the inner handler wrote and adds nothing, unless
    [recover] returned a non-nil value: then it adds one log record (the
    message, a newline, the trace joined with newlines), the content type
    and the status of the configuration, and never a body. *)
Theorem default_wrapper_returns (rt : Runtime) (custom : nat -> ErrHandlerSem)
    (calls : list OptionCall) (h : Handler) (w : ResponseWriter) (r : Request)
    (s : World) :
  let c := configured calls in
  let s1 := fst (h w r s) in
  Config.ErrHandler c = DefaultErrorHandler_func ->
  Config.Logger c <> nil_Logger ->
  100 <= Config.ResponseStatus c <= 999 ->
  Config.StackSize c <= maxAlloc rt ->
  exists new,
    Recover rt custom (map option_of calls) h w r s =
    ({| events := (events s1 ++ new)%list; goroutine := goroutine s1 |},
     inl tt) /\
    bodies new = [] /\
    new = match recovered rt (snd (h w r s)) with
          | Some x =>
              [Printf (Config.Logger c)
                 (message x ++ nl ++ Join (trace c s1) nl);
               Header_Set w "Content-Type" (Config.ContentType c);
               WriteHeader w (Config.ResponseStatus c)]
          | None => []
          end.
Proof.
  intros c s1 Hdefault Hlog Hcode Hmax. subst s1.
  destruct (h w r s) as [s1 [u|v]] eqn:Hh; cbn [fst snd recovered].
  - exists []. rewrite world_app_nil, Recover_unfold.
    rewrite (Recover_handler_returned rt custom _ h w r s s1 u Hh).
    now repeat split.
  - destruct (carried rt v) as [x|] eqn:Hv.
    + eexists. split; [|split; [|reflexivity]].
      * rewrite (Recover_configured_dispatch rt custom calls h w r s s1 v x
                   Hh Hv Hmax).
        fold c. rewrite Hdefault. cbn [call_ErrHandler].
        now apply DefaultErrorHandler_run.
      * reflexivity.
    + exists []. rewrite world_app_nil, Recover_unfold.
      rewrite (Recover_handler_nil rt custom _ h w r s s1 v Hh Hv).
      now repeat split.
Qed.

Lemma default_wrapper_returns_witness :
  exists new,
    Recover go_default sample_custom (map option_of [Call_ResponseStatus 503])
      (panicking (Some (DBool true))) 1%nat sample_request
      {| events := []; goroutine := "" |} =
    ({| events := ([WriteBody 1%nat "partial"] ++ new)%list; goroutine := "" |},
     inl tt) /\
    bodies new = [] /\
    new = [Printf (log_New os_Stderr "" 3) ("unknown panic" ++ nl);
           Header_Set 1%nat "Content-Type" "application/json";
           WriteHeader 1%nat 503].
Proof.
  apply (default_wrapper_returns go_default sample_custom
           [Call_ResponseStatus 503]
           (panicking (Some (DBool true))) 1%nat sample_request
           {| events := []; goroutine := "" |}).
  - reflexivity.
  - discriminate.
  - vm_compute. split; discriminate.
  - vm_compute. discriminate.
Defined.

(** X8: an error handler of the caller is in full control: when the last
    [ErrorHandler] option supplied names the caller's function, [recover]
    returns a non-nil value and [make] grants the stack size, the wrapped
    handler does exactly what that function does, called once with the
    final configuration, the response writer of the request, the message
    and the trace, on the world the inner handler left. The wrapper adds no
    log record, header, status or body of its own. *)
Theorem custom_handler_in_control (rt : Runtime)
    (custom : nat -> ErrHandlerSem) (earlier later : list OptionCall)
    (id : nat) (h : Handler) (w : ResponseWriter) (r : Request)
    (s s1 : World) (v : any) (x : dyn) :
  let calls := (earlier ++ Call_ErrorHandler (Custom_func id) :: later)%list in
  Forall (fun k => field_of k <> FErrHandler) later ->
  h w r s = (s1, inr v) ->
  carried rt v = Some x ->
  Config.StackSize (configured calls) <= maxAlloc rt ->
  Recover rt custom (map option_of calls) h w r s =
  custom id (configured calls) w (message x) (trace (configured calls) s1) s1.
Proof.
  intros calls Hlater Hh Hv Hmax.
  rewrite (Recover_configured_dispatch rt custom calls h w r s s1 v x
             Hh Hv Hmax).
  unfold calls. now rewrite configured_ErrHandler_last.
Qed.

Lemma custom_handler_in_control_witness :
  log_records (events (fst
    (Recover go_default sample_custom
       (map option_of
          ([Call_ErrorHandler DefaultErrorHandler_func] ++
           Call_ErrorHandler (Custom_func 0) :: [Call_ResponseStatus 502]))
       (panicking (Some (DString "aloha"))) 1%nat sample_request
       {| events := []; goroutine := "" |}))) = [].
Proof.
  rewrite (custom_handler_in_control go_default sample_custom
             [Call_ErrorHandler DefaultErrorHandler_func]
             [Call_ResponseStatus 502] 0 (panicking (Some (DString "aloha")))
             1%nat sample_request {| events := []; goroutine := "" |}
             {| events := [WriteBody 1%nat "partial"]; goroutine := "" |}
             (Some (DString "aloha")) (DString "aloha")
             ltac:(repeat constructor; discriminate) eq_refl eq_refl
             ltac:(vm_compute; discriminate)).
  reflexivity.
Defined.

(** *** The trace *)

(** X9: the trace handed to the error handler is never empty. The captured
    text has one line more than it has newlines; the trace has 3 lines
    fewer than the text when the text has more than 3 lines, and as many
    otherwise; and no line of the trace holds a newline. *)
Theorem trace_never_empty (rt : Runtime) (calls : list OptionCall)
    (h : Handler) (w : ResponseWriter) (r : Request) (s s1 : World) (v : any)
    (x : dyn) :
  h w r s = (s1, inr v) ->
  carried rt v = Some x ->
  let c := configured calls in
  let n := S (count_byte newline (captured c s1)) in
  Config.StackSize c <= maxAlloc rt ->
  exists stack,
    (forall custom,
       Recover rt custom (map option_of calls) h w r s =
       call_ErrHandler custom (Config.ErrHandler c) c w (message x) stack s1) /\
    stack <> [] /\
    Forall (fun line => has_byte newline line = false) stack /\
    List.length stack = if (3 <? n)%nat then (n - 3)%nat else n.
Proof.
  intros Hh Hv c n Hmax.
  exists (trace c s1).
  split.
  - intros custom.
    now apply (Recover_configured_dispatch rt custom calls h w r s s1 v).
  - apply trace_lines.
Qed.

Lemma trace_never_empty_witness :
  exists stack,
    (forall custom,
       Recover go_default custom
         (map option_of [Call_ErrorHandler (Custom_func 0)])
         (panicking (Some (DString "!!!"))) 1%nat sample_request
         {| events := []; goroutine := "" |} =
       custom 0%nat (configured [Call_ErrorHandler (Custom_func 0)]) 1%nat
         "panic: !!!" stack
         {| events := [WriteBody 1%nat "partial"]; goroutine := "" |}) /\
    List.length stack = 1%nat.
Proof.
  destruct (trace_never_empty go_default [Call_ErrorHandler (Custom_func 0)]
              (panicking (Some (DString "!!!"))) 1%nat sample_request
              {| events := []; goroutine := "" |}
              {| events := [WriteBody 1%nat "partial"]; goroutine := "" |}
              (Some (DString "!!!")) (DString "!!!") eq_refl eq_refl
              ltac:(vm_compute; discriminate))
    as (stack & Hrun & _ & _ & Hlen).
  exists stack. split; [exact Hrun|exact Hlen].
Defined.

(** X10: what the trace leaves out of the captured text is exactly its
    first three lines. When the captured text has at most two newlines, the
    trace joined with newlines is the whole text; when it has three or
    more, the text is three lines without a newline inside, each followed
    by a newline, and then the trace joined with newlines. *)
Theorem trace_is_tail (rt : Runtime) (calls : list OptionCall) (h : Handler)
    (w : ResponseWriter) (r : Request) (s s1 : World) (v : any) (x : dyn) :
  h w r s = (s1, inr v) ->
  carried rt v = Some x ->
  let c := configured calls in
  let text := captured c s1 in
  Config.StackSize c <= maxAlloc rt ->
  exists stack,
    (forall custom,
       Recover rt custom (map option_of calls) h w r s =
       call_ErrHandler custom (Config.ErrHandler c) c w (message x) stack s1) /\
    ((count_byte newline text <= 2)%nat -> Join stack nl = text) /\
    ((3 <= count_byte newline text)%nat ->
     exists l1 l2 l3,
       has_byte newline l1 = false /\
       has_byte newline l2 = false /\
       has_byte newline l3 = false /\
       text = l1 ++ nl ++ l2 ++ nl ++ l3 ++ nl ++ Join stack nl).
Proof.
  intros Hh Hv c text Hmax.
  exists (trace c s1).
  split.
  - intros custom.
    now apply (Recover_configured_dispatch rt custom calls h w r s s1 v).
  - apply trace_tail.
Qed.

Lemma trace_is_tail_witness :
  exists stack,
    (forall custom,
       Recover go_default custom
         (map option_of [Call_ErrorHandler (Custom_func 0)])
         (panicking (Some (DString "!!!"))) 1%nat sample_request
         {| events := []; goroutine := "a" ++ nl ++ "b" |} =
       custom 0%nat (configured [Call_ErrorHandler (Custom_func 0)]) 1%nat
         "panic: !!!" stack
         {| events := [WriteBody 1%nat "partial"];
            goroutine := "a" ++ nl ++ "b" |}) /\
    Join stack nl = "a" ++ nl ++ "b".
Proof.
  destruct (trace_is_tail go_default [Call_ErrorHandler (Custom_func 0)]
              (panicking (Some (DString "!!!"))) 1%nat sample_request
              {| events := []; goroutine := "a" ++ nl ++ "b" |}
              {| events := [WriteBody 1%nat "partial"];
                 goroutine := "a" ++ nl ++ "b" |}
              (Some (DString "!!!")) (DString "!!!") eq_refl eq_refl
              ltac:(vm_compute; discriminate))
    as (stack & Hrun & Hfew & _).
  exists stack. split; [exact Hrun|].
  apply Hfew. vm_compute. lia.
Defined.

(** X11: the trace can be read back from the log record of the default
    error handler. With the default error handler and a logger that is not
    nil, when [recover] returns a non-nil value and [make] grants the stack
    size, the wrapper adds one record to the log, for the logger of the
    configuration, whatever the response status; cutting its text at the
    newlines gives the lines of the message followed by the lines of the
    trace, and so the message itself in front of the trace when the message
    holds no newline. *)
Theorem log_record_splits (rt : Runtime) (custom : nat -> ErrHandlerSem)
    (calls : list OptionCall) (h : Handler) (w : ResponseWriter) (r : Request)
    (s s1 : World) (v : any) (x : dyn) :
  let c := configured calls in
  Config.ErrHandler c = DefaultErrorHandler_func ->
  Config.Logger c <> nil_Logger ->
  Config.StackSize c <= maxAlloc rt ->
  h w r s = (s1, inr v) ->
  carried rt v = Some x ->
  exists text,
    log_records
      (events (fst (Recover rt custom (map option_of calls) h w r s))) =
      (log_records (events s1) ++ [(Config.Logger c, text)])%list /\
    Split text newline = (Split (message x) newline ++ trace c s1)%list /\
    (has_byte newline (message x) = false ->
     Split text newline = message x :: trace c s1).
Proof.
  intros c Hdefault Hlog Hmax Hh Hv.
  exists (message x ++ nl ++ Join (trace c s1) nl).
  assert (Hsplit :
    Split (message x ++ nl ++ Join (trace c s1) nl) newline =
    (Split (message x) newline ++ trace c s1)%list).
  { change (message x ++ nl ++ Join (trace c s1) nl)
      with (message x ++ String newline (Join (trace c s1) nl)).
    rewrite Split_app_sep. f_equal.
    destruct (trace_lines c s1) as (Hne & Hall & _).
    now apply Split_Join. }
  split; [|split].
  - rewrite (Recover_configured_dispatch rt custom calls h w r s s1 v x
               Hh Hv Hmax).
    fold c. rewrite Hdefault. cbn [call_ErrHandler].
    now apply DefaultErrorHandler_logs_once.
  - exact Hsplit.
  - intros Hmsg. rewrite Hsplit. now rewrite (Split_whole _ _ Hmsg).
Qed.

Lemma log_record_splits_witness :
  exists text,
    log_records (events (fst
      (Recover go_default sample_custom
         (map option_of [Call_Logger buffer_logger; Call_ResponseStatus 0])
         (panicking (Some (DString "aloha"))) 1%nat sample_request
         sample_world))) =
      [(buffer_logger, text)] /\
    Split text newline =
      ["panic: aloha";
       "panic(0x6a1fc0, 0x7b2d50)";
       "	/usr/local/go/src/runtime/panic.go:679 +0x1b2";
       "main.hello()";
       "	/src/app/main.go:12 +0x39";
       ""].
Proof.
  destruct (log_record_splits go_default sample_custom
              [Call_Logger buffer_logger; Call_ResponseStatus 0]
              (panicking (Some (DString "aloha"))) 1%nat sample_request
              sample_world
              {| events := [WriteBody 1%nat "partial"];
                 goroutine := sample_stack |}
              (Some (DString "aloha")) (DString "aloha") eq_refl
              ltac:(discriminate) ltac:(vm_compute; discriminate)
              eq_refl eq_refl)
    as (text & Hlog & _ & Hsplit).
  exists text. split; [exact Hlog|].
  rewrite Hsplit; reflexivity.
Defined.

Lemma count_byte_app (a : ascii) (s t : string) :
  count_byte a (s ++ t) = (count_byte a s + count_byte a t)%nat.
Proof.
  induction s as [|b s IH]; cbn [append count_byte].
  - reflexivity.
  - destruct (Ascii.eqb b a); now rewrite IH.
Qed.

Lemma captured_extends (c1 c2 : Config) (s : World) :
  Config.StackSize c1 <= Config.StackSize c2 ->
  exists rest, captured c2 s = captured c1 s ++ rest.
Proof.
  intros Hle. unfold captured.
  set (full := list_byte_of_string (goroutine s)).
  set (n1 := Z.to_nat (Config.StackSize c1)).
  set (n2 := Z.to_nat (Config.StackSize c2)).
  exists (string_of_list_byte (skipn n1 (firstn n2 full))).
  rewrite <- string_of_list_byte_app. f_equal.
  rewrite <- (firstn_skipn n1 (firstn n2 full)) at 1.
  f_equal. rewrite firstn_firstn. f_equal. unfold n1, n2. lia.
Qed.

(** A text starts with one line only. *)
Lemma first_line_unique (l l' a b : string) :
  has_byte newline l = false ->
  has_byte newline l' = false ->
  l ++ String newline a = l' ++ String newline b ->
  l = l' /\ a = b.
Proof.
  revert l'.
  induction l as [|x l IH]; intros [|x' l'] Hl Hl' E;
    cbn [append has_byte] in *.
  - injection E as E. now split.
  - injection E as Ex E. subst x'.
    now rewrite Ascii.eqb_refl in Hl'.
  - injection E as Ex E. subst x.
    now rewrite Ascii.eqb_refl in Hl.
  - injection E as Ex E. subst x'.
    apply orb_false_iff in Hl, Hl'.
    destruct (IH l' (proj2 Hl) (proj2 Hl') E) as [-> ->]. now split.
Qed.

(** X12: a larger stack size never loses lines of the trace. When the
    wrapper hands the same panic to the error handler under two
    configurations, the second with a stack size at least that of the first
    and granted by [make], and the text captured under the first has three
    newlines or more, then the trace of the second, joined with newlines,
    is the trace of the first, joined with newlines, followed by more
    text. *)
Theorem larger_StackSize_extends_trace (rt : Runtime)
    (calls1 calls2 : list OptionCall) (h : Handler) (w : ResponseWriter)
    (r : Request) (s s1 : World) (v : any) (x : dyn) :
  let c1 := configured calls1 in
  let c2 := configured calls2 in
  h w r s = (s1, inr v) ->
  carried rt v = Some x ->
  Config.StackSize c1 <= Config.StackSize c2 ->
  Config.StackSize c2 <= maxAlloc rt ->
  (3 <= count_byte newline (captured c1 s1))%nat ->
  exists stack1 stack2 rest,
    (forall custom,
       Recover rt custom (map option_of calls1) h w r s =
       call_ErrHandler custom (Config.ErrHandler c1) c1 w (message x) stack1
         s1) /\
    (forall custom,
       Recover rt custom (map option_of calls2) h w r s =
       call_ErrHandler custom (Config.ErrHandler c2) c2 w (message x) stack2
         s1) /\
    Join stack2 nl = Join stack1 nl ++ rest.
Proof.
  intros c1 c2 Hh Hv Hle Hmax Hcount.
  destruct (captured_extends c1 c2 s1 Hle) as (rest & Hrest).
  exists (trace c1 s1), (trace c2 s1), rest.
  split; [|split].
  - intros custom.
    apply (Recover_configured_dispatch rt custom calls1 h w r s s1 v x Hh Hv).
    fold c1. lia.
  - intros custom.
    now apply (Recover_configured_dispatch rt custom calls2 h w r s s1 v x).
  - destruct (proj2 (trace_tail c1 s1) Hcount)
      as (l1 & l2 & l3 & H1 & H2 & H3 & E1).
    assert (Hcount2 : (3 <= count_byte newline (captured c2 s1))%nat).
    { rewrite Hrest, count_byte_app. lia. }
    destruct (proj2 (trace_tail c2 s1) Hcount2)
      as (m1 & m2 & m3 & G1 & G2 & G3 & E2).
    rewrite Hrest, E1 in E2.
    rewrite !string_app_assoc in E2.
    unfold nl in E2 at 1 2 3 4 5 6. cbn [append] in E2.
    destruct (first_line_unique _ _ _ _ H1 G1 E2) as [_ E3].
    destruct (first_line_unique _ _ _ _ H2 G2 E3) as [_ E4].
    destruct (first_line_unique _ _ _ _ H3 G3 E4) as [_ E5].
    now symmetry.
Qed.

Lemma larger_StackSize_extends_trace_witness :
  exists stack1 stack2 rest,
    (forall custom,
       Recover go_default custom (map option_of [])
         (panicking (Some (DString "!!!"))) 1%nat sample_request
         {| events := []; goroutine := deep_stack |} =
       call_ErrHandler custom DefaultErrorHandler_func (configured []) 1%nat
         "panic: !!!" stack1
         {| events := [WriteBody 1%nat "partial"];
            goroutine := deep_stack |}) /\
    (forall custom,
       Recover go_default custom (map option_of [Call_StackSize 5000])
         (panicking (Some (DString "!!!"))) 1%nat sample_request
         {| events := []; goroutine := deep_stack |} =
       call_ErrHandler custom DefaultErrorHandler_func
         (configured [Call_StackSize 5000]) 1%nat "panic: !!!" stack2
         {| events := [WriteBody 1%nat "partial"];
            goroutine := deep_stack |}) /\
    Join stack2 nl = Join stack1 nl ++ rest.
Proof.
  apply (larger_StackSize_extends_trace go_default [] [Call_StackSize 5000]
           (panicking (Some (DString "!!!"))) 1%nat sample_request
           {| events := []; goroutine := deep_stack |}
           {| events := [WriteBody 1%nat "partial"]; goroutine := deep_stack |}
           (Some (DString "!!!")) (DString "!!!")).
  - reflexivity.
  - reflexivity.
  - vm_compute. discriminate.
  - vm_compute. discriminate.
  - vm_compute. lia.
Defined.

(** *** Wrappers around wrappers *)




(** X14: each wrapper recovers one layer of failure. When the error handler
    of an inner wrapper panics, and [recover] in the outer wrapper returns a
    non-nil value [y] for that panic, an outer wrapper whose stack size
    [make] grants treats it as it treats a panic of any handler: it calls
    its own error handler once, with its own configuration, the message of
    [y] and the trace captured in the world the inner error handler left. *)
Theorem nested_failure (rt : Runtime) (custom : nat -> ErrHandlerSem)
    (outer inner : list OptionCall) (h : Handler) (w : ResponseWriter)
    (r : Request) (s s1 s2 : World) (v v' : any) (x y : dyn) :
  let c1 := configured outer in
  let c2 := configured inner in
  h w r s = (s1, inr v) ->
  carried rt v = Some x ->
  Config.StackSize c2 <= maxAlloc rt ->
  call_ErrHandler custom (Config.ErrHandler c2) c2 w (message x) (trace c2 s1)
    s1 = (s2, inr v') ->
  carried rt v' = Some y ->
  Config.StackSize c1 <= maxAlloc rt ->
  Recover rt custom (map option_of outer)
    (Recover rt custom (map option_of inner) h) w r s =
  call_ErrHandler custom (Config.ErrHandler c1) c1 w (message y) (trace c1 s2)
    s2.
Proof.
  intros c1 c2 Hh Hv Hmax2 Hfail Hv' Hmax1.
  apply (Recover_configured_dispatch rt custom outer _ w r s s2 v' y);
    [|exact Hv'|exact Hmax1].
  now rewrite (Recover_configured_dispatch rt custom inner h w r s s1 v x
                 Hh Hv Hmax2).
Qed.

Lemma nested_failure_witness :
  Recover go_default failing_custom (map option_of [])
    (Recover go_default failing_custom
       (map option_of [Call_ErrorHandler (Custom_func 0)])
       (panicking (Some (DString "!!!")))) 1%nat sample_request
    {| events := []; goroutine := "" |} =
  ({| events :=
        [WriteBody 1%nat "partial"; WriteHeader 1%nat 500;
         Printf (log_New os_Stderr "" 3) ("panic: panic: !!!" ++ nl);
         Header_Set 1%nat "Content-Type" "application/json";
         WriteHeader 1%nat 500];
      goroutine := "" |}, inl tt).
Proof.
  rewrite (nested_failure go_default failing_custom []
             [Call_ErrorHandler (Custom_func 0)]
             (panicking (Some (DString "!!!"))) 1%nat sample_request
             {| events := []; goroutine := "" |}
             {| events := [WriteBody 1%nat "partial"]; goroutine := "" |}
             {| events := [WriteBody 1%nat "partial"; WriteHeader 1%nat 500];
                goroutine := "" |}
             (Some (DString "!!!")) (Some (DString "panic: !!!"))
             (DString "!!!") (DString "panic: !!!") eq_refl eq_refl
             ltac:(vm_compute; discriminate) eq_refl eq_refl
             ltac:(vm_compute; discriminate)).
  reflexivity.
Defined.

(** *** What the wrapper does in every case *)

Lemma DefaultErrorHandler_counts (c : Config) (w : ResponseWriter)
    (msg : string) (stack : list string) (s : World) :
  Config.Logger c <> nil_Logger ->
  List.length (log_records (events (fst (DefaultErrorHandler c w msg stack s)))) =
  S (List.length (log_records (events s))).
Proof.
  intros Hlog.
  rewrite (DefaultErrorHandler_logs_once c w msg stack s Hlog), length_app.
  cbn [List.length]. lia.
Qed.

(** X15: for a wrapper configured with the options of the package, on every
    runtime, the error handler is called at most once per request and only
    when a panic left the inner handler. When the inner handler returns, or
    [recover] returns nil for its panic, the wrapper returns normally and
    leaves the world as the inner handler left it. When [recover] returns a
    non-nil value, the wrapper does what one call of the configured error
    handler does, with the message and the trace of that value, if [make]
    grants the stack size, and panics with the error of [make] in the world
    the inner handler left if not. For every measure of the world that a
    call of the error handler raises by one, the wrapper raises it by at
    most one over the inner handler, and not at all when [recover] returns
    nil. *)
Theorem Recover_dispatch_once (rt : Runtime) (calls : list OptionCall)
    (h : Handler) (w : ResponseWriter) (r : Request) (s : World) :
  let c := configured calls in
  let options := map option_of calls in
  (forall custom,
     match h w r s with
     | (s1, inl _) => Recover rt custom options h w r s = (s1, inl tt)
     | (s1, inr v) =>
         match carried rt v with
         | None => Recover rt custom options h w r s = (s1, inl tt)
         | Some x =>
             (Config.StackSize c <= maxAlloc rt ->
              Recover rt custom options h w r s =
              call_ErrHandler custom (Config.ErrHandler c) c w
                (message x) (trace c s1) s1) /\
             (maxAlloc rt < Config.StackSize c ->
              Recover rt custom options h w r s =
              (s1, inr (runtime_Error "makeslice: len out of range")))
         end
     end) /\
  (forall custom (count : World -> nat),
     (forall msg stack s',
        count (fst (call_ErrHandler custom (Config.ErrHandler c) c w msg
                      stack s')) = S (count s')) ->
     (count (fst (Recover rt custom options h w r s)) <=
      S (count (fst (h w r s))))%nat /\
     (recovered rt (snd (h w r s)) = None ->
      count (fst (Recover rt custom options h w r s)) =
      count (fst (h w r s)))).
Proof.
  intros c options.
  assert (Hcases : forall custom,
     match h w r s with
     | (s1, inl _) => Recover rt custom options h w r s = (s1, inl tt)
     | (s1, inr v) =>
         match carried rt v with
         | None => Recover rt custom options h w r s = (s1, inl tt)
         | Some x =>
             (Config.StackSize c <= maxAlloc rt ->
              Recover rt custom options h w r s =
              call_ErrHandler custom (Config.ErrHandler c) c w
                (message x) (trace c s1) s1) /\
             (maxAlloc rt < Config.StackSize c ->
              Recover rt custom options h w r s =
              (s1, inr (runtime_Error "makeslice: len out of range")))
         end
     end).
  { intros custom.
    destruct (h w r s) as [s1 [u|v]] eqn:Hh.
    - rewrite Recover_unfold.
      now apply (Recover_handler_returned rt custom _ h w r s s1 u).
    - destruct (carried rt v) as [x|] eqn:Hv.
      + split; intros Hmax.
        * now apply (Recover_configured_dispatch rt custom calls h w r s s1 v).
        * now apply (Recover_configured_makeslice rt custom calls h w r s s1 v x).
      + rewrite Recover_unfold.
        now apply (Recover_handler_nil rt custom _ h w r s s1 v). }
  split; [exact Hcases|].
  intros custom count Hcount. specialize (Hcases custom).
  destruct (h w r s) as [s1 [u|v]] eqn:Hh; cbn [fst snd recovered].
  - rewrite Hcases. cbn [fst]. split; [lia|reflexivity].
  - destruct (carried rt v) as [x|] eqn:Hv.
    + destruct Hcases as [Hok Hbig]. split; [|discriminate].
      destruct (Z.le_gt_cases (Config.StackSize c) (maxAlloc rt)) as [H|H].
      * rewrite (Hok H), Hcount. lia.
      * rewrite (Hbig H). cbn [fst]. lia.
    + rewrite Hcases. cbn [fst]. split; [lia|reflexivity].
Qed.

Lemma Recover_dispatch_once_witness :
  (List.length (log_records (events (fst
     (Recover go_default sample_custom (map option_of [Call_StackSize 1])
        (panicking (Some (DString "!!!"))) 1%nat sample_request
        sample_world)))) <=
   S (List.length (log_records (events (fst
     (panicking (Some (DString "!!!")) 1%nat sample_request
        sample_world))))))%nat.
Proof.
  apply (proj1 (proj2
    (Recover_dispatch_once go_default [Call_StackSize 1]
       (panicking (Some (DString "!!!"))) 1%nat sample_request sample_world)
    sample_custom (fun s => List.length (log_records (events s)))
    (fun msg stack s' =>
       DefaultErrorHandler_counts (configured [Call_StackSize 1]) 1%nat msg
         stack s' ltac:(discriminate)))).
Defined.

(** X16: the option [Logger] accepts nil, and the default error handler
    does not check: with a nil logger, when [recover] returns a non-nil
    value and [make] grants the stack size, the wrapper panics with a nil
    dereference, and nothing is written to the response or to a log. *)
Theorem nil_Logger_panics (rt : Runtime) (custom : nat -> ErrHandlerSem)
    (calls : list OptionCall) (h : Handler) (w : ResponseWriter) (r : Request)
    (s s1 : World) (v : any) (x : dyn) :
  let c := configured calls in
  Config.ErrHandler c = DefaultErrorHandler_func ->
  Config.Logger c = nil_Logger ->
  Config.StackSize c <= maxAlloc rt ->
  h w r s = (s1, inr v) ->
  carried rt v = Some x ->
  Recover rt custom (map option_of calls) h w r s = (s1, inr nil_dereference).
Proof.
  intros c Hdefault Hlog Hmax Hh Hv.
  rewrite (Recover_configured_dispatch rt custom calls h w r s s1 v x
             Hh Hv Hmax).
  fold c. rewrite Hdefault. cbn [call_ErrHandler].
  now apply DefaultErrorHandler_nil_Logger.
Qed.

Lemma nil_Logger_panics_witness :
  Recover go_default sample_custom (map option_of [Call_Logger nil_Logger])
    (bare_panic (Some (DString "!!!"))) 1%nat sample_request sample_world =
  (sample_world,
   inr (Some (DError
     {| Error :=
          "runtime error: invalid memory address or nil pointer dereference"
     |}))).
Proof.
  apply (nil_Logger_panics go_default sample_custom [Call_Logger nil_Logger]
           (bare_panic (Some (DString "!!!"))) 1%nat sample_request
           sample_world sample_world (Some (DString "!!!")) (DString "!!!")).
  - reflexivity.
  - reflexivity.
  - vm_compute. discriminate.
  - reflexivity.
  - reflexivity.
Defined.

(** X17: the option [ErrorHandler] accepts nil, and the wrapper does not
    check: with a nil error handler, when [recover] returns a non-nil value
    and [make] grants the stack size, the wrapper panics with a nil
    dereference in the world the inner handler left. *)
Theorem nil_ErrHandler_panics (rt : Runtime) (custom : nat -> ErrHandlerSem)
    (calls : list OptionCall) (h : Handler) (w : ResponseWriter) (r : Request)
    (s s1 : World) (v : any) (x : dyn) :
  let c := configured calls in
  Config.ErrHandler c = nil_func ->
  Config.StackSize c <= maxAlloc rt ->
  h w r s = (s1, inr v) ->
  carried rt v = Some x ->
  Recover rt custom (map option_of calls) h w r s = (s1, inr nil_dereference).
Proof.
  intros c Hnil Hmax Hh Hv.
  rewrite (Recover_configured_dispatch rt custom calls h w r s s1 v x
             Hh Hv Hmax).
  fold c. now rewrite Hnil.
Qed.

Lemma nil_ErrHandler_panics_witness :
  Recover go_default sample_custom
    (map option_of [Call_ErrorHandler nil_func])
    (bare_panic (Some (DString "!!!"))) 1%nat sample_request sample_world =
  (sample_world, inr nil_dereference).
Proof.
  apply (nil_ErrHandler_panics go_default sample_custom
           [Call_ErrorHandler nil_func]
           (bare_panic (Some (DString "!!!"))) 1%nat sample_request
           sample_world sample_world (Some (DString "!!!")) (DString "!!!")).
  - reflexivity.
  - vm_compute. discriminate.
  - reflexivity.
  - reflexivity.
Defined.



(** ** The tests of the package, run on the model *)

(** [TestRecoverMiddleware]: a panic with ["!!!"] and no options gives the
    status 500, the content type [application/json] and no body; the log
    record starts with the message and goes on with the trace. *)
Example test_Recover_default :
  Recover go_default sample_custom [] (bare_panic (Some (DString "!!!")))
    1%nat sample_request sample_world =
  ({| events :=
        [Printf (log_New os_Stderr "" 3)
           ("panic: !!!" ++ nl ++
            "panic(0x6a1fc0, 0x7b2d50)" ++ nl ++
            "	/usr/local/go/src/runtime/panic.go:679 +0x1b2" ++ nl ++
            "main.hello()" ++ nl ++
            "	/src/app/main.go:12 +0x39" ++ nl);
         Header_Set 1%nat "Content-Type" "application/json";
         WriteHeader 1%nat 500];
      goroutine := sample_stack |}, inl tt).
Proof. vm_compute. reflexivity. Qed.

(** [TestRecoverMiddlewareWithOptions]: the options set the content type,
    the status and the logger; the stack size 1 is too small and ignored. *)
Example test_Recover_options :
  let options :=
    [ContentType "application/xml"; ResponseStatus http_StatusOK;
     Logger buffer_logger; StackSize 1] in
  Config.StackSize (apply_options options NewConfig) = 4096 /\
  Recover go_default sample_custom options
    (bare_panic (Some (DString "aloha"))) 1%nat sample_request
    {| events := []; goroutine := "" |} =
  ({| events :=
        [Printf buffer_logger ("panic: aloha" ++ nl);
         Header_Set 1%nat "Content-Type" "application/xml";
         WriteHeader 1%nat 200];
      goroutine := "" |}, inl tt).
Proof. split; vm_compute; reflexivity. Qed.

(** [TestRecoverMiddlewareWithCustomErrorHandler]: the caller's handler
    writes the body and nothing reaches a logger. *)
Example test_Recover_custom :
  let s := fst (Recover go_default sample_custom
                  [ErrorHandler (Custom_func 0)]
                  (bare_panic (Some (DString "aloha"))) 1%nat
                  sample_request {| events := []; goroutine := "" |}) in
  log_records (events s) = [] /\
  bodies (events s) = ["panic: aloha" ++ nl].
Proof. split; vm_compute; reflexivity. Qed.

(** A stack text longer than the buffer is cut at [StackSize] bytes. *)
Example captured_deep_stack :
  Z.of_nat (String.length deep_stack) = 6011 /\
  Z.of_nat (String.length
    (captured NewConfig {| events := []; goroutine := deep_stack |})) = 4096.
Proof. split; vm_compute; reflexivity. Qed.

(** [panic(nil)] on the default runtime since Go 1.21: the wrapper logs the
    error the runtime put in the place of nil. *)
Example nil_panic_by_default :
  log_records (events (fst
    (Recover go_default sample_custom [] (bare_panic None) 1%nat
       sample_request {| events := []; goroutine := "" |}))) =
  [(log_New os_Stderr "" 3,
    "panic: panic called with nil argument (obsolete)" ++ nl)].
Proof. vm_compute. reflexivity. Qed.
